(** * auto_gptq/utils/import_utils.py

    A shallow embedding of the capability probe that runs when the module is
    imported, of the backend selector [dynamically_import_QuantLinear] and of
    the two version comparators, followed by the properties that the
    specification states about them.

    Python values are modelled as follows: [bool] for booleans, [Z] for the
    unbounded integers [bits] and [group_size], [string] for text, [option]
    for values that may be [None] and for module globals that may be unbound.
    The selector reads and writes a module global and logs, and it may raise:
    it lives in an exception monad over a state monad, so that what was
    written before a [raise] is kept, as in Python. *)

From Stdlib Require Import ZArith NArith Ascii String List Bool Lia.
From ExtLib Require Import Structures.Monad Structures.MonadState Structures.MonadExc.
From ExtLib Require Import Data.Monads.StateMonad Data.Monads.EitherMonad.
Import ListNotations.
Import MonadNotation.
Local Open Scope monad_scope.
Local Open Scope string_scope.
Local Open Scope Z_scope.

(** ** Python exceptions *)

(** The exception classes that the module can see or raise.
    [ModuleNotFoundError] is a subclass of [ImportError] and is folded into
    it; [OtherException] stands for any further subclass of [Exception]. *)
Inductive exn : Type :=
| ImportError (msg : string)
| NameError (msg : string)
| AssertionError (msg : string)
| ValueError (msg : string)
| InvalidVersion (msg : string)
| AttributeError (msg : string)
| OtherException (cls msg : string).

(** [str(e)], which is what an f-string prints for [{e}]. *)
Definition str_exn (e : exn) : string :=
  match e with
  | ImportError m | NameError m | AssertionError m | ValueError m
  | InvalidVersion m | AttributeError m | OtherException _ m => m
  end.

(** [isinstance(e, ImportError)] *)
Definition is_ImportError (e : exn) : bool :=
  match e with
  | ImportError _ => true
  | _ => false
  end.

(** [str(x)] of a global that holds [None] or an exception. *)
Definition str_optexn (x : option exn) : string :=
  match x with
  | None => "None"
  | Some e => str_exn e
  end.

(** What an [import] statement of an optional extension does. *)
Inductive import_outcome : Type :=
| Imported
| Raised (e : exn).

(** [d] occurs in [msg]. *)
Definition Contains (d msg : string) : Prop :=
  exists pre post : string, msg = pre ++ d ++ post.

(** ** The capability probe (module level, lines 8-63) *)

(** The optional extensions whose import is attempted when the module is
    loaded. *)
Record Imports : Type := {
  import_triton : import_outcome;
  import_autogptq_cuda_64 : import_outcome;
  import_exllama_kernels : import_outcome;
  import_exllamav2_kernels : import_outcome;
  import_cQIGen : import_outcome;
  import_autogptq_marlin_cuda : import_outcome;
  import_intel_extension_for_pytorch : import_outcome
}.

(** The module's global names after the probe.  [_warned] is bound by the
    probe only on the branch where [intel_extension_for_pytorch] was
    imported, so it is an [option]: [None] is an unbound name. *)
Record Globals : Type := {
  TRITON_AVAILABLE : bool;
  AUTOGPTQ_CUDA_AVAILABLE : bool;
  EXLLAMA_KERNELS_AVAILABLE : bool;
  EXLLAMAV2_KERNELS_AVAILABLE : bool;
  QIGEN_AVAILABLE : bool;
  QIGEN_EXCEPTION : option exn;
  MARLIN_AVAILABLE : bool;
  MARLIN_EXCEPTION : option exn;
  IPEX_AVAILABLE : bool;
  IPEX_EXCEPTION : option exn;
  _warned : option bool
}.

(** [try: import m; except Exception: ...] gives the flag. *)
Definition available (o : import_outcome) : bool :=
  match o with
  | Imported => true
  | Raised _ => false
  end.

(** [except Exception as e: X_EXCEPTION = e], and [None] on success. *)
Definition captured (o : import_outcome) : option exn :=
  match o with
  | Imported => None
  | Raised e => Some e
  end.

(** The globals that the six probes after triton's bind, given the flag
    [t] that triton's probe has set. *)
Definition probe_globals (t : bool) (i : Imports) : Globals :=
  {| TRITON_AVAILABLE := t;
     AUTOGPTQ_CUDA_AVAILABLE := available (import_autogptq_cuda_64 i);
     EXLLAMA_KERNELS_AVAILABLE := available (import_exllama_kernels i);
     EXLLAMAV2_KERNELS_AVAILABLE := available (import_exllamav2_kernels i);
     QIGEN_AVAILABLE := available (import_cQIGen i);
     QIGEN_EXCEPTION := captured (import_cQIGen i);
     MARLIN_AVAILABLE := available (import_autogptq_marlin_cuda i);
     MARLIN_EXCEPTION := captured (import_autogptq_marlin_cuda i);
     IPEX_AVAILABLE := available (import_intel_extension_for_pytorch i);
     IPEX_EXCEPTION := captured (import_intel_extension_for_pytorch i);
     _warned := match import_intel_extension_for_pytorch i with
                | Imported => Some false
                | Raised _ => None
                end |}.

(** Running the module body.  The probe of triton catches [ImportError]
    only: any other exception leaves the [try], and the import of the module
    itself fails with it.  The six other probes catch every [Exception]. *)
Definition module_init (i : Imports) : exn + Globals :=
  match import_triton i with
  | Imported => inr (probe_globals true i)
  | Raised e => if is_ImportError e then inr (probe_globals false i) else inl e
  end.

(** ** The backend selector (lines 69-137) *)

(** The class [QuantLinear] that the selector returns, named after the
    module of [nn_modules.qlinear] it is imported from.

    Modelled from the spec: the ten modules [nn_modules/qlinear/qlinear_*.py]
    are not among the sources at hand; the spec describes what is returned
    as an opaque identifier of one backend, and importing one of these
    modules is taken to yield it. *)
Inductive Backend : Type :=
| qlinear_hpu
| qlinear_qigen
| qlinear_tritonv2
| qlinear_triton
| qlinear_ipex
| qlinear_marlin
| qlinear_exllamav2
| qlinear_exllama
| qlinear_cuda_old
| qlinear_cuda.

(** What the selector asks of the process at the time of the call. *)
Record Runtime : Type := {
  import_habana_hpu : import_outcome;   (* import habana_frameworks.torch.hpu *)
  cuda_is_available : bool;             (* torch.cuda.is_available() *)
  version_hip : option string;          (* torch.version.hip *)
  transformers_version : exn + string;  (* from transformers import __version__ *)
  torch_version : string                (* from torch import __version__ *)
}.

(** Truth value of [torch.version.hip]: [None] and the empty string are
    false. *)
Definition truthy (s : option string) : bool :=
  match s with
  | None => false
  | Some EmptyString => false
  | Some _ => true
  end.

Inductive level : Type := DEBUG | WARNING.

(** The state a call runs in: the module's globals and what has been handed
    to [logger] so far, oldest first. *)
Record World : Type := {
  globals : Globals;
  records : list (level * string)
}.

(** Computations that read and write the [World] and may raise. *)
Definition Py : Type -> Type := eitherT exn (state World).

(** Running [c] in [w]: what it raises or returns, and the world it
    leaves. *)
Definition run {A : Type} (c : Py A) (w : World) : (exn + A) * World :=
  runState (unEitherT c) w.

(** [logger.warning(msg)] and [logger.debug(msg)] *)
Definition logger_log (l : level) (msg : string) : Py unit :=
  w <- get ;;
  put {| globals := globals w; records := records w ++ [(l, msg)] |}.

(** Reading the global [_warned]; an unbound name raises [NameError]. *)
Definition load_warned : Py bool :=
  w <- get ;;
  match _warned (globals w) with
  | Some b => ret b
  | None => raise (NameError "name '_warned' is not defined")
  end.

(** The globals once [_warned] is bound to [b]. *)
Definition bind_warned (b : bool) (g : Globals) : Globals :=
  {| TRITON_AVAILABLE := TRITON_AVAILABLE g;
     AUTOGPTQ_CUDA_AVAILABLE := AUTOGPTQ_CUDA_AVAILABLE g;
     EXLLAMA_KERNELS_AVAILABLE := EXLLAMA_KERNELS_AVAILABLE g;
     EXLLAMAV2_KERNELS_AVAILABLE := EXLLAMAV2_KERNELS_AVAILABLE g;
     QIGEN_AVAILABLE := QIGEN_AVAILABLE g;
     QIGEN_EXCEPTION := QIGEN_EXCEPTION g;
     MARLIN_AVAILABLE := MARLIN_AVAILABLE g;
     MARLIN_EXCEPTION := MARLIN_EXCEPTION g;
     IPEX_AVAILABLE := IPEX_AVAILABLE g;
     IPEX_EXCEPTION := IPEX_EXCEPTION g;
     _warned := Some b |}.

(** [_warned = b] under [global _warned]. *)
Definition store_warned (b : bool) : Py unit :=
  w <- get ;;
  put {| globals := bind_warned b (globals w); records := records w |}.

(** Reading the capability globals.  No call writes them, so the selector
    reads them once, after line 94, for all the tests that follow. *)
Definition read_globals : Py Globals :=
  w <- get ;; ret (globals w).

(** [assert c, msg], the interpreter running with assertions on. *)
Definition py_assert (c : bool) (msg : string) : Py unit :=
  if c then ret tt else raise (AssertionError msg).

(** Lines 89-94: without CUDA and without a request for IPEX, warn once and
    turn [use_ipex] on.  The result is the value of [use_ipex] afterwards. *)
Definition force_ipex (rt : Runtime) (use_ipex : bool) : Py bool :=
  if negb (cuda_is_available rt) && negb use_ipex then
    warned <- load_warned ;;
    (if negb warned then
       logger_log WARNING "No cuda found, set use_ipex=True to use cpu" ;;
       store_warned true
     else ret tt) ;;
    ret true
  else ret use_ipex.

(** Lines 121-125: the value of [disable_exllama] once [None] is resolved. *)
Definition resolve_disable_exllama
    (disable_exllama : option bool) (disable_exllamav2 : bool) : bool :=
  match disable_exllama with
  | None => if disable_exllamav2 then false else true
  | Some b => b
  end.

(** The function, with its parameters in the order of the source.  The
    defaults of the source are [disable_exllama = None] and [False] for the
    five parameters after it. *)
Definition dynamically_import_QuantLinear (rt : Runtime)
    (use_triton desc_act : bool) (group_size bits : Z)
    (disable_exllama : option bool)
    (disable_exllamav2 use_qigen use_marlin use_tritonv2 use_ipex : bool)
  : Py Backend :=
  match import_habana_hpu rt with
  | Imported => ret qlinear_hpu
  | Raised _ =>
      use_ipex <- force_ipex rt use_ipex ;;
      g <- read_globals ;;
      if use_qigen then
        if negb (QIGEN_AVAILABLE g) then
          raise (ValueError
            ("QIGen appears to be not available with the error: "
             ++ str_optexn (QIGEN_EXCEPTION g)
             ++ ". Please check your installation or use `use_qigen=False`."))
        else ret qlinear_qigen
      else if use_triton || use_tritonv2 then
        (if truthy (version_hip rt) then
           logger_log WARNING
             "Running GPTQ triton version on AMD GPUs is untested and may result in errors or wrong predictions. Please use use_triton=False."
         else ret tt) ;;
        if use_tritonv2 then
          logger_log DEBUG "Using tritonv2 for GPTQ" ;;
          ret qlinear_tritonv2
        else ret qlinear_triton
      else if use_ipex then
        py_assert (bits =? 4) "IPEX only support 4bit GPTQ" ;;
        if negb (IPEX_AVAILABLE g) then
          raise (ValueError
            ("IPEX appears to be not available with the error: "
             ++ str_optexn (IPEX_EXCEPTION g)
             ++ ". Please install with `pip install intel-extension-for-pytorch`."))
        else ret qlinear_ipex
      else
        let disable_exllama :=
          resolve_disable_exllama disable_exllama disable_exllamav2 in
        if (bits =? 4) && use_marlin then ret qlinear_marlin
        else if (bits =? 4) && negb disable_exllamav2
                && EXLLAMAV2_KERNELS_AVAILABLE g then ret qlinear_exllamav2
        else if (bits =? 4) && negb disable_exllama
                && EXLLAMA_KERNELS_AVAILABLE g then ret qlinear_exllama
        else if negb desc_act || (group_size =? -1) then ret qlinear_cuda_old
        else ret qlinear_cuda
  end.

(** ** The version comparators (lines 140-153) *)

(** [packaging.version] is a library outside the repository: what the
    comparators use of it is taken as an interface.  [parse_version] raises
    on text that is not a version ([inl]); the six rich comparison methods
    of [Version] are total on two versions. *)
Class Packaging : Type := {
  Version : Type;
  parse_version : string -> exn + Version;
  __eq__ : Version -> Version -> bool;
  __ne__ : Version -> Version -> bool;
  __lt__ : Version -> Version -> bool;
  __le__ : Version -> Version -> bool;
  __gt__ : Version -> Version -> bool;
  __ge__ : Version -> Version -> bool
}.

(** The operators that the [assert] of both comparators lets through. *)
Definition operators : list string := ["eq"; "lt"; "le"; "gt"; "ge"].

(** [op in ["eq", "lt", "le", "gt", "ge"]] *)
Definition op_in_operators (op : string) : bool :=
  existsb (String.eqb op) operators.

Section Comparators.
Context {P : Packaging}.

(** [getattr(v, name)] for the comparison methods.  Behind the [assert]
    only the five names built from [operators] are looked up. *)
Definition getattr_Version (name : string)
  : exn + (Version -> Version -> bool) :=
  if String.eqb name "__eq__" then inr __eq__
  else if String.eqb name "__ne__" then inr __ne__
  else if String.eqb name "__lt__" then inr __lt__
  else if String.eqb name "__le__" then inr __le__
  else if String.eqb name "__gt__" then inr __gt__
  else if String.eqb name "__ge__" then inr __ge__
  else inl (AttributeError
              ("'Version' object has no attribute '" ++ name ++ "'")).

(** Both bodies after the [assert] and the import: the installed version
    is parsed, the method is looked up on it, the target is parsed, and
    the method is called. *)
Definition compare_installed (installed version op : string) : exn + bool :=
  a <- parse_version installed ;;
  method <- getattr_Version ("__" ++ op ++ "__") ;;
  b <- parse_version version ;;
  ret (method a b).

(** The source's defaults are [version = "v4.28.0"] and [op = "eq"]. *)
Definition compare_transformers_version (rt : Runtime)
    (version op : string) : exn + bool :=
  if op_in_operators op then
    installed <- transformers_version rt ;;
    compare_installed installed version op
  else inl (AssertionError EmptyString).

(** The source's defaults are [version = "v2.0.0"] and [op = "eq"]. *)
Definition compare_pytorch_version (rt : Runtime)
    (version op : string) : exn + bool :=
  if op_in_operators op then
    compare_installed (torch_version rt) version op
  else inl (AssertionError EmptyString).

End Comparators.

(** ** A small instance of the interface, for running the comparators *)

(** Versions made of a release segment only: an optional leading [v] and
    decimal numbers separated by dots, compared number by number with
    missing numbers read as zero ([1.0] equals [1.0.0]).  This is the part
    of [packaging.version] that the default arguments of the comparators
    exercise; it serves the examples below, and no general statement rests
    on it. *)
Module Release.

Definition digit (c : Ascii.ascii) : option N :=
  let n := Ascii.N_of_ascii c in
  if ((48 <=? n) && (n <=? 57))%N then Some (n - 48)%N else None.

(** A run of digits read as a number, after [acc]; [seen] tells that at
    least one digit was read. *)
Fixpoint number (s : string) (acc : N) (seen : bool) : option N :=
  match s with
  | EmptyString => if seen then Some acc else None
  | String c s' =>
      match digit c with
      | Some d => number s' (10 * acc + d)%N true
      | None => None
      end
  end.

(** The pieces of [s] between dots, [cur] being the piece under way, its
    characters in reverse. *)
Fixpoint pieces (s : string) (cur : list Ascii.ascii) : list string :=
  match s with
  | EmptyString => [string_of_list_ascii (rev cur)]
  | String c s' =>
      if Ascii.eqb c "."%char then
        string_of_list_ascii (rev cur) :: pieces s' []
      else pieces s' (c :: cur)
  end.

Fixpoint numbers (l : list string) : option (list N) :=
  match l with
  | [] => Some []
  | p :: l' =>
      match number p 0%N false, numbers l' with
      | Some n, Some ns => Some (n :: ns)
      | _, _ => None
      end
  end.

Definition strip_v (s : string) : string :=
  match s with
  | String c s' => if Ascii.eqb c "v"%char then s' else s
  | EmptyString => s
  end.

Definition parse (s : string) : exn + list N :=
  match numbers (pieces (strip_v s) []) with
  | Some ns => inr ns
  | None => inl (InvalidVersion ("Invalid version: '" ++ s ++ "'"))
  end.

(** How [l] compares with the empty release, whose numbers all read as
    zero. *)
Fixpoint against_zeros (l : list N) : comparison :=
  match l with
  | [] => Eq
  | x :: l' => match (x ?= 0)%N with Eq => against_zeros l' | c => c end
  end.

Fixpoint cmp (a b : list N) : comparison :=
  match a, b with
  | [], _ => CompOpp (against_zeros b)
  | _ :: _, [] => against_zeros a
  | x :: a', y :: b' => match (x ?= y)%N with Eq => cmp a' b' | c => c end
  end.

Definition holds (c : comparison) (a b : list N) : bool :=
  match cmp a b, c with
  | Eq, Eq | Lt, Lt | Gt, Gt => true
  | _, _ => false
  end.

#[export] Instance packaging : Packaging := {|
  Version := list N;
  parse_version := parse;
  __eq__ := holds Eq;
  __ne__ := fun a b => negb (holds Eq a b);
  __lt__ := holds Lt;
  __le__ := fun a b => negb (holds Gt a b);
  __gt__ := holds Gt;
  __ge__ := fun a b => negb (holds Lt a b)
|}.

End Release.

(** ** Worlds and runtimes for the examples *)

Definition no_module (name : string) : import_outcome :=
  Raised (ImportError ("No module named '" ++ name ++ "'")).

(** No optional extension is installed. *)
Definition nothing_installed : Imports :=
  {| import_triton := no_module "triton";
     import_autogptq_cuda_64 := no_module "autogptq_cuda_64";
     import_exllama_kernels := no_module "exllama_kernels";
     import_exllamav2_kernels := no_module "exllamav2_kernels";
     import_cQIGen := no_module "cQIGen";
     import_autogptq_marlin_cuda := no_module "autogptq_marlin_cuda";
     import_intel_extension_for_pytorch :=
       no_module "intel_extension_for_pytorch" |}.

(** Every optional extension is installed. *)
Definition everything_installed : Imports :=
  {| import_triton := Imported;
     import_autogptq_cuda_64 := Imported;
     import_exllama_kernels := Imported;
     import_exllamav2_kernels := Imported;
     import_cQIGen := Imported;
     import_autogptq_marlin_cuda := Imported;
     import_intel_extension_for_pytorch := Imported |}.

(** Only [cQIGen] is installed. *)
Definition only_qigen : Imports :=
  {| import_triton := no_module "triton";
     import_autogptq_cuda_64 := no_module "autogptq_cuda_64";
     import_exllama_kernels := no_module "exllama_kernels";
     import_exllamav2_kernels := no_module "exllamav2_kernels";
     import_cQIGen := Imported;
     import_autogptq_marlin_cuda := no_module "autogptq_marlin_cuda";
     import_intel_extension_for_pytorch :=
       no_module "intel_extension_for_pytorch" |}.

(** The world right after the module was imported: the globals of the
    probe, and nothing logged. *)
Definition fresh_world (i : Imports) : exn + World :=
  match module_init i with
  | inl e => inl e
  | inr g => inr {| globals := g; records := [] |}
  end.

(** A machine with a CUDA device and one without, both without HPU. *)
Definition cuda_machine : Runtime :=
  {| import_habana_hpu := no_module "habana_frameworks";
     cuda_is_available := true;
     version_hip := None;
     transformers_version := inr "4.28.0";
     torch_version := "2.0.0" |}.

Definition cpu_machine : Runtime :=
  {| import_habana_hpu := no_module "habana_frameworks";
     cuda_is_available := false;
     version_hip := None;
     transformers_version := inr "4.28.0";
     torch_version := "2.0.0" |}.

Definition hpu_machine : Runtime :=
  {| import_habana_hpu := Imported;
     cuda_is_available := false;
     version_hip := None;
     transformers_version := inr "4.28.0";
     torch_version := "2.0.0" |}.

(** Every capability flag is false. *)
Definition all_unavailable (g : Globals) : bool :=
  negb (TRITON_AVAILABLE g) && negb (AUTOGPTQ_CUDA_AVAILABLE g)
  && negb (EXLLAMA_KERNELS_AVAILABLE g) && negb (EXLLAMAV2_KERNELS_AVAILABLE g)
  && negb (QIGEN_AVAILABLE g) && negb (MARLIN_AVAILABLE g)
  && negb (IPEX_AVAILABLE g).

(** The world after the one warning of lines 91-93 was given. *)
Definition warned_once (w : World) : World :=
  {| globals := bind_warned true (globals w);
     records :=
       records w ++ [(WARNING, "No cuda found, set use_ipex=True to use cpu")] |}.

(** The message of the [NameError] that reading an unbound [_warned]
    raises. *)
Definition unbound_warned : exn :=
  NameError "name '_warned' is not defined".

(** The test of line 89 does not come to read an unbound [_warned]: CUDA is
    there, or IPEX was asked for, or the name is bound. *)
Definition latch_readable (rt : Runtime) (w : World) (u : bool) : Prop :=
  cuda_is_available rt = true \/ u = true \/ _warned (globals w) <> None.

(** [_warned] is unbound exactly when IPEX is unavailable. *)
Definition latch_follows_ipex (g : Globals) : Prop :=
  _warned g = None <-> IPEX_AVAILABLE g = false.

(** The worlds right after the module was imported with nothing installed,
    with everything installed, and with [cQIGen] alone. *)
Definition bare_world : World :=
  {| globals := probe_globals false nothing_installed; records := [] |}.

Definition full_world : World :=
  {| globals := probe_globals true everything_installed; records := [] |}.

Definition qigen_world : World :=
  {| globals := probe_globals false only_qigen; records := [] |}.

(** The text that the probe of IPEX captures when the package is missing. *)
Definition ipex_missing : string :=
  "No module named 'intel_extension_for_pytorch'".

(** ** Vocabulary for the behaviour of calls over time *)

(** The arguments of one call of the selector. *)
Record Call : Type := {
  c_use_triton : bool;
  c_desc_act : bool;
  c_group_size : Z;
  c_bits : Z;
  c_disable_exllama : option bool;
  c_disable_exllamav2 : bool;
  c_use_qigen : bool;
  c_use_marlin : bool;
  c_use_tritonv2 : bool;
  c_use_ipex : bool
}.

(** The call of the selector with the arguments [c]. *)
Definition call (rt : Runtime) (c : Call) : Py Backend :=
  dynamically_import_QuantLinear rt (c_use_triton c) (c_desc_act c)
    (c_group_size c) (c_bits c) (c_disable_exllama c)
    (c_disable_exllamav2 c) (c_use_qigen c) (c_use_marlin c)
    (c_use_tritonv2 c) (c_use_ipex c).

(** The world after a sequence of calls, each with the runtime it met;
    a call that raises leaves the world it had reached. *)
Fixpoint after_calls (cs : list (Runtime * Call)) (w : World) : World :=
  match cs with
  | [] => w
  | (rt, c) :: cs' => after_calls cs' (snd (run (call rt c) w))
  end.

(** The record of the warning of line 92. *)
Definition no_cuda_warning : level * string :=
  (WARNING, "No cuda found, set use_ipex=True to use cpu").

Definition is_no_cuda_warning (r : level * string) : bool :=
  match r with
  | (WARNING, m) => String.eqb m (snd no_cuda_warning)
  | (DEBUG, _) => false
  end.

(** How often the warning of line 92 was logged. *)
Definition no_cuda_warnings (w : World) : nat :=
  List.length (filter is_no_cuda_warning (records w)).

(** What the triton branch (lines 103-108) hands to the logger. *)
Definition triton_records (rt : Runtime) (use_tritonv2 : bool)
  : list (level * string) :=
  (if truthy (version_hip rt) then
     [(WARNING,
       "Running GPTQ triton version on AMD GPUs is untested and may result in errors or wrong predictions. Please use use_triton=False.")]
   else [])
  ++ (if use_tritonv2 then [(DEBUG, "Using tritonv2 for GPTQ")] else []).

(** The world with [l] logged after what was there. *)
Definition logged (l : list (level * string)) (w : World) : World :=
  {| globals := globals w; records := records w ++ l |}.

(** The errors of lines 97, 113 and 115, in a world with globals [g]. *)
Definition qigen_unavailable (g : Globals) : exn :=
  ValueError
    ("QIGen appears to be not available with the error: "
     ++ str_optexn (QIGEN_EXCEPTION g)
     ++ ". Please check your installation or use `use_qigen=False`.").

Definition ipex_unavailable (g : Globals) : exn :=
  ValueError
    ("IPEX appears to be not available with the error: "
     ++ str_optexn (IPEX_EXCEPTION g)
     ++ ". Please install with `pip install intel-extension-for-pytorch`.").

Definition ipex_needs_4bit : exn :=
  AssertionError "IPEX only support 4bit GPTQ".

(** Two globals agree on everything but [_warned]. *)
Definition same_capabilities (g g' : Globals) : Prop :=
  TRITON_AVAILABLE g' = TRITON_AVAILABLE g
  /\ AUTOGPTQ_CUDA_AVAILABLE g' = AUTOGPTQ_CUDA_AVAILABLE g
  /\ EXLLAMA_KERNELS_AVAILABLE g' = EXLLAMA_KERNELS_AVAILABLE g
  /\ EXLLAMAV2_KERNELS_AVAILABLE g' = EXLLAMAV2_KERNELS_AVAILABLE g
  /\ QIGEN_AVAILABLE g' = QIGEN_AVAILABLE g
  /\ QIGEN_EXCEPTION g' = QIGEN_EXCEPTION g
  /\ MARLIN_AVAILABLE g' = MARLIN_AVAILABLE g
  /\ MARLIN_EXCEPTION g' = MARLIN_EXCEPTION g
  /\ IPEX_AVAILABLE g' = IPEX_AVAILABLE g
  /\ IPEX_EXCEPTION g' = IPEX_EXCEPTION g.

(** The class that lines 121-135 pick. *)
Definition default_choice (g : Globals) (desc_act : bool) (group_size bits : Z)
    (disable_exllama : option bool) (disable_exllamav2 use_marlin : bool)
  : Backend :=
  if (bits =? 4) && use_marlin then qlinear_marlin
  else if (bits =? 4) && negb disable_exllamav2
          && EXLLAMAV2_KERNELS_AVAILABLE g then qlinear_exllamav2
  else if (bits =? 4)
          && negb (resolve_disable_exllama disable_exllama disable_exllamav2)
          && EXLLAMA_KERNELS_AVAILABLE g then qlinear_exllama
  else if negb desc_act || (group_size =? -1) then qlinear_cuda_old
  else qlinear_cuda.

(** Some arguments and a machine with an AMD build of torch, for the
    examples. *)
Definition plain_call : Call :=
  {| c_use_triton := false; c_desc_act := true; c_group_size := 128;
     c_bits := 4; c_disable_exllama := None; c_disable_exllamav2 := false;
     c_use_qigen := false; c_use_marlin := false; c_use_tritonv2 := false;
     c_use_ipex := false |}.

Definition rocm_machine : Runtime :=
  {| import_habana_hpu := no_module "habana_frameworks";
     cuda_is_available := true;
     version_hip := Some "5.4.22803";
     transformers_version := inr "4.28.0";
     torch_version := "2.0.0" |}.

(** A machine where transformers is not installed and torch reports a
    version that [Release] does not read. *)
Definition odd_machine : Runtime :=
  {| import_habana_hpu := no_module "habana_frameworks";
     cuda_is_available := true;
     version_hip := None;
     transformers_version := inl (ImportError "No module named 'transformers'");
     torch_version := "2.x" |}.

(** Only the exllama-v1 kernels are installed, and the world right after
    the module was imported there. *)
Definition only_exllama : Imports :=
  {| import_triton := no_module "triton";
     import_autogptq_cuda_64 := no_module "autogptq_cuda_64";
     import_exllama_kernels := Imported;
     import_exllamav2_kernels := no_module "exllamav2_kernels";
     import_cQIGen := no_module "cQIGen";
     import_autogptq_marlin_cuda := no_module "autogptq_marlin_cuda";
     import_intel_extension_for_pytorch :=
       no_module "intel_extension_for_pytorch" |}.

Definition exllama_world : World :=
  {| globals := probe_globals false only_exllama; records := [] |}.

(** Only IPEX is installed. *)
Definition only_ipex : Imports :=
  {| import_triton := no_module "triton";
     import_autogptq_cuda_64 := no_module "autogptq_cuda_64";
     import_exllama_kernels := no_module "exllama_kernels";
     import_exllamav2_kernels := no_module "exllamav2_kernels";
     import_cQIGen := no_module "cQIGen";
     import_autogptq_marlin_cuda := no_module "autogptq_marlin_cuda";
     import_intel_extension_for_pytorch := Imported |}.

Definition ipex_world : World :=
  {| globals := probe_globals false only_ipex; records := [] |}.

(** * Properties *)

(** ** Running a computation step by step *)

Lemma run_bind {A B : Type} (c : Py A) (k : A -> Py B) (w : World) :
  run (x <- c ;; k x) w =
  match run c w with
  | (inl e, w') => (inl e, w')
  | (inr a, w') => run (k a) w'
  end.
Proof.
  unfold run. simpl.
  destruct (runState (unEitherT c) w) as [[e | a] w']; reflexivity.
Qed.

Lemma run_ret {A : Type} (a : A) (w : World) :
  run (ret a) w = (inr a, w).
Proof. reflexivity. Qed.

Lemma run_raise {A : Type} (e : exn) (w : World) :
  run (raise e : Py A) w = (inl e, w).
Proof. reflexivity. Qed.

(** ** Lines 89-94: forcing IPEX *)

Lemma force_ipex_cuda (rt : Runtime) (u : bool) (w : World) :
  cuda_is_available rt = true -> run (force_ipex rt u) w = (inr u, w).
Proof.
  intros Hc. unfold force_ipex. rewrite Hc. reflexivity.
Qed.

Lemma force_ipex_requested (rt : Runtime) (w : World) :
  run (force_ipex rt true) w = (inr true, w).
Proof.
  unfold force_ipex. rewrite andb_false_r. reflexivity.
Qed.

Lemma force_ipex_unbound (rt : Runtime) (w : World) :
  cuda_is_available rt = false ->
  _warned (globals w) = None ->
  run (force_ipex rt false) w = (inl unbound_warned, w).
Proof.
  intros Hc Hw. unfold force_ipex, run. rewrite Hc. simpl. rewrite Hw.
  reflexivity.
Qed.

Lemma force_ipex_first (rt : Runtime) (w : World) :
  cuda_is_available rt = false ->
  _warned (globals w) = Some false ->
  run (force_ipex rt false) w = (inr true, warned_once w).
Proof.
  intros Hc Hw. unfold force_ipex, run. rewrite Hc. simpl. rewrite Hw.
  reflexivity.
Qed.

Lemma force_ipex_again (rt : Runtime) (w : World) :
  cuda_is_available rt = false ->
  _warned (globals w) = Some true ->
  run (force_ipex rt false) w = (inr true, w).
Proof.
  intros Hc Hw. unfold force_ipex, run. rewrite Hc. simpl. rewrite Hw.
  reflexivity.
Qed.

Lemma run_read_globals (w : World) :
  run read_globals w = (inr (globals w), w).
Proof. reflexivity. Qed.

(** Whatever [force_ipex] does, it leaves every capability flag alone, and
    it binds [_warned] only if it was bound before. *)
Lemma force_ipex_keeps_flags (rt : Runtime) (u : bool) (w : World) :
  let w' := snd (run (force_ipex rt u) w) in
  globals w' = globals w \/ globals w' = bind_warned true (globals w)
                            /\ _warned (globals w) = Some false.
Proof.
  unfold force_ipex, run.
  destruct (cuda_is_available rt), u; simpl; auto.
  destruct (_warned (globals w)) as [[|]|] eqn:Hw; simpl; auto.
Qed.

(** ** Entering the selector *)

(** With the HPU extension out of the way, a call is [force_ipex] followed
    by the cascade on the globals. *)
Ltac enter Hhpu :=
  unfold dynamically_import_QuantLinear;
  match goal with
  | |- context [import_habana_hpu ?rt] =>
      destruct (import_habana_hpu rt); [discriminate Hhpu | ]
  end;
  rewrite run_bind.

(** After [force_ipex] has returned, read the globals and go on. *)
Ltac cascade := rewrite run_bind, run_read_globals.

(** ** The branches whenever the test of lines 89-94 does not raise *)

Section Branches.
Variables (rt : Runtime) (w : World).
Variables (use_triton desc_act : bool) (group_size bits : Z).
Variables (disable_exllama : option bool).
Variables (disable_exllamav2 use_marlin use_tritonv2 use_ipex : bool).
Hypothesis no_hpu : available (import_habana_hpu rt) = false.

Lemma force_ipex_returns (u : bool) :
  latch_readable rt w u ->
  exists (u' : bool) (w' : World),
    run (force_ipex rt u) w = (inr u', w')
    /\ u' = (u || negb (cuda_is_available rt))
    /\ QIGEN_AVAILABLE (globals w') = QIGEN_AVAILABLE (globals w)
    /\ QIGEN_EXCEPTION (globals w') = QIGEN_EXCEPTION (globals w)
    /\ IPEX_AVAILABLE (globals w') = IPEX_AVAILABLE (globals w)
    /\ IPEX_EXCEPTION (globals w') = IPEX_EXCEPTION (globals w).
Proof.
  unfold latch_readable, force_ipex, run. intros H.
  destruct (cuda_is_available rt) eqn:Hc, u; simpl;
    try (eexists; eexists; repeat split; reflexivity).
  destruct H as [H | [H | H]]; try discriminate.
  destruct (_warned (globals w)) as [[|]|]; simpl;
    try (eexists; eexists; repeat split; reflexivity).
  exfalso. apply H. reflexivity.
Qed.

(** [use_qigen]: the flag decides, nothing else is looked at. *)
Lemma qigen_branch :
  latch_readable rt w use_ipex ->
  fst (run (dynamically_import_QuantLinear rt use_triton desc_act group_size
              bits disable_exllama disable_exllamav2 true use_marlin
              use_tritonv2 use_ipex) w)
  = if QIGEN_AVAILABLE (globals w) then inr qlinear_qigen
    else inl (ValueError
           ("QIGen appears to be not available with the error: "
            ++ str_optexn (QIGEN_EXCEPTION (globals w))
            ++ ". Please check your installation or use `use_qigen=False`.")).
Proof.
  intros H. enter no_hpu.
  destruct (force_ipex_returns use_ipex H)
    as (u' & w' & -> & _ & Ha & He & _).
  cascade. rewrite Ha, He.
  destruct (QIGEN_AVAILABLE (globals w)); reflexivity.
Qed.

(** [use_triton] or [use_tritonv2] without [use_qigen]: a triton class,
    whatever [TRITON_AVAILABLE] holds. *)
Lemma triton_branch :
  latch_readable rt w use_ipex ->
  use_triton || use_tritonv2 = true ->
  fst (run (dynamically_import_QuantLinear rt use_triton desc_act group_size
              bits disable_exllama disable_exllamav2 false use_marlin
              use_tritonv2 use_ipex) w)
  = inr (if use_tritonv2 then qlinear_tritonv2 else qlinear_triton).
Proof.
  intros H Ht. enter no_hpu.
  destruct (force_ipex_returns use_ipex H) as (u' & w' & -> & _).
  cascade. rewrite Ht.
  destruct (truthy (version_hip rt)), use_tritonv2; reflexivity.
Qed.

(** [use_ipex], given or forced, without [use_qigen] and triton. *)
Lemma ipex_branch :
  latch_readable rt w use_ipex ->
  use_ipex || negb (cuda_is_available rt) = true ->
  fst (run (dynamically_import_QuantLinear rt false desc_act group_size
              bits disable_exllama disable_exllamav2 false use_marlin
              false use_ipex) w)
  = if negb (bits =? 4) then
      inl (AssertionError "IPEX only support 4bit GPTQ")
    else if IPEX_AVAILABLE (globals w) then inr qlinear_ipex
    else inl (ValueError
           ("IPEX appears to be not available with the error: "
            ++ str_optexn (IPEX_EXCEPTION (globals w))
            ++ ". Please install with `pip install intel-extension-for-pytorch`.")).
Proof.
  intros H Hu. enter no_hpu.
  destruct (force_ipex_returns use_ipex H)
    as (u' & w' & -> & -> & _ & _ & Ha & He).
  cascade. rewrite Hu. simpl. rewrite Ha, He.
  destruct (bits =? 4), (IPEX_AVAILABLE (globals w)); reflexivity.
Qed.

(** The default family, entered with CUDA and without any of [use_qigen],
    [use_triton], [use_tritonv2] and [use_ipex]: the cascade of lines
    121-135, and an untouched world. *)
Lemma default_family :
  cuda_is_available rt = true ->
  run (dynamically_import_QuantLinear rt false desc_act group_size
         bits disable_exllama disable_exllamav2 false use_marlin
         false false) w
  = (inr (if (bits =? 4) && use_marlin then qlinear_marlin
          else if (bits =? 4) && negb disable_exllamav2
                  && EXLLAMAV2_KERNELS_AVAILABLE (globals w)
               then qlinear_exllamav2
          else if (bits =? 4)
                  && negb (resolve_disable_exllama disable_exllama
                             disable_exllamav2)
                  && EXLLAMA_KERNELS_AVAILABLE (globals w)
               then qlinear_exllama
          else if negb desc_act || (group_size =? -1) then qlinear_cuda_old
          else qlinear_cuda), w).
Proof.
  intros Hc. enter no_hpu. rewrite (force_ipex_cuda _ _ _ Hc). cascade.
  simpl.
  destruct ((bits =? 4) && use_marlin); [reflexivity | ].
  destruct ((bits =? 4) && negb disable_exllamav2
            && EXLLAMAV2_KERNELS_AVAILABLE (globals w)); [reflexivity | ].
  destruct ((bits =? 4)
            && negb (resolve_disable_exllama disable_exllama disable_exllamav2)
            && EXLLAMA_KERNELS_AVAILABLE (globals w)); [reflexivity | ].
  destruct (negb desc_act || (group_size =? -1)); reflexivity.
Qed.

End Branches.

(** ** Text *)

Lemma length_append (a b : string) :
  String.length (a ++ b) = (String.length a + String.length b)%nat.
Proof.
  induction a as [| c a IH]; simpl; [reflexivity | now rewrite IH].
Qed.

Lemma Contains_length (d msg : string) :
  Contains d msg -> (String.length d <= String.length msg)%nat.
Proof.
  intros (pre & post & ->). rewrite !length_append. lia.
Qed.

Lemma Contains_middle (pre d post : string) : Contains d (pre ++ d ++ post).
Proof. exists pre, post. reflexivity. Qed.

(** ** What a call leaves of the globals *)

(** A call changes the globals as [force_ipex] does, and not at all when the
    HPU extension is there. *)
Lemma selector_globals (rt : Runtime) (w : World)
    (use_triton desc_act : bool) (group_size bits : Z)
    (disable_exllama : option bool)
    (disable_exllamav2 use_qigen use_marlin use_tritonv2 use_ipex : bool) :
  globals (snd (run (dynamically_import_QuantLinear rt use_triton desc_act
                       group_size bits disable_exllama disable_exllamav2
                       use_qigen use_marlin use_tritonv2 use_ipex) w))
  = match import_habana_hpu rt with
    | Imported => globals w
    | Raised _ => globals (snd (run (force_ipex rt use_ipex) w))
    end.
Proof.
  unfold dynamically_import_QuantLinear.
  destruct (import_habana_hpu rt); [reflexivity | ].
  rewrite run_bind.
  destruct (run (force_ipex rt use_ipex) w) as [[e' | u'] w'];
    [reflexivity | ].
  cascade. simpl snd.
  destruct use_qigen.
  { destruct (QIGEN_AVAILABLE (globals w')); reflexivity. }
  destruct (use_triton || use_tritonv2).
  { destruct (truthy (version_hip rt)), use_tritonv2; reflexivity. }
  destruct u'.
  { destruct (bits =? 4), (IPEX_AVAILABLE (globals w')); reflexivity. }
  destruct ((bits =? 4) && use_marlin); [reflexivity | ].
  destruct ((bits =? 4) && negb disable_exllamav2
            && EXLLAMAV2_KERNELS_AVAILABLE (globals w')); [reflexivity | ].
  destruct ((bits =? 4)
            && negb (resolve_disable_exllama disable_exllama disable_exllamav2)
            && EXLLAMA_KERNELS_AVAILABLE (globals w')); [reflexivity | ].
  destruct (negb desc_act || (group_size =? -1)); reflexivity.
Qed.

(** The probe leaves the globals so, *)
Lemma module_init_latch (i : Imports) (g : Globals) :
  module_init i = inr g -> latch_follows_ipex g.
Proof.
  unfold module_init, latch_follows_ipex. intros H.
  assert (Hg : exists t, g = probe_globals t i).
  { destruct (import_triton i) as [| e].
    - exists true. congruence.
    - destruct (is_ImportError e); [exists false; congruence | discriminate]. }
  destruct Hg as [t ->]. simpl.
  destruct (import_intel_extension_for_pytorch i); simpl;
    split; intros; congruence.
Qed.

(** and every call keeps them so: without IPEX the name stays unbound for
    the life of the process. *)
Lemma selector_keeps_latch (rt : Runtime) (w : World)
    (use_triton desc_act : bool) (group_size bits : Z)
    (disable_exllama : option bool)
    (disable_exllamav2 use_qigen use_marlin use_tritonv2 use_ipex : bool) :
  latch_follows_ipex (globals w) ->
  latch_follows_ipex
    (globals (snd (run (dynamically_import_QuantLinear rt use_triton desc_act
                          group_size bits disable_exllama disable_exllamav2
                          use_qigen use_marlin use_tritonv2 use_ipex) w))).
Proof.
  intros H. rewrite selector_globals.
  destruct (import_habana_hpu rt); [exact H | ].
  destruct (force_ipex_keeps_flags rt use_ipex w) as [-> | [-> Hw]];
    [exact H | ].
  unfold latch_follows_ipex in *. simpl. rewrite Hw in H.
  split; intros K; [discriminate K | ].
  apply H in K. discriminate K.
Qed.

(** ** The claims on the selector *)

(** C1, as amended.  With every capability flag false, the default
    preference and no HPU extension, the selector returns a class of the
    generic family for every configuration provided that CUDA is available:
    [qlinear_cuda_old] when [desc_act] is false or [group_size] is -1, and
    [qlinear_cuda] otherwise; nothing is raised, written or logged. *)
Theorem C1_all_unavailable_with_cuda
    (rt : Runtime) (w : World) (desc_act : bool) (group_size bits : Z) :
  available (import_habana_hpu rt) = false ->
  cuda_is_available rt = true ->
  all_unavailable (globals w) = true ->
  run (dynamically_import_QuantLinear rt false desc_act group_size bits
         None false false false false false) w
  = (inr (if negb desc_act || (group_size =? -1) then qlinear_cuda_old
          else qlinear_cuda), w).
Proof.
  intros Hh Hc Ha. rewrite (default_family _ _ _ _ _ _ _ _ Hh Hc).
  unfold all_unavailable in Ha.
  repeat (apply andb_prop in Ha; destruct Ha as [Ha ?]).
  repeat match goal with
         | H : negb ?b = true |- _ => apply negb_true_iff in H
         end.
  replace (EXLLAMAV2_KERNELS_AVAILABLE (globals w)) with false by congruence.
  replace (EXLLAMA_KERNELS_AVAILABLE (globals w)) with false by congruence.
  rewrite !andb_false_r. reflexivity.
Qed.

Lemma C1_all_unavailable_with_cuda_witness :
  run (dynamically_import_QuantLinear cuda_machine false true 128 4
         None false false false false false) bare_world
  = (inr qlinear_cuda, bare_world).
Proof.
  apply (C1_all_unavailable_with_cuda cuda_machine bare_world true 128 4);
    reflexivity.
Defined.

(** C1 as stated fails.  Nothing is installed, there is neither HPU nor
    CUDA, and the call has the default preference with bits = 4,
    group_size = 128 and desc_act = true: the call raises and returns no
    class.  In the world that the probe leaves, the exception is the
    [NameError] of the unbound [_warned]; were the name bound, the forced
    [use_ipex] would end in the [ValueError] of the missing IPEX. *)
Lemma C1_nothing_installed_without_cuda :
  fresh_world nothing_installed = inr bare_world
  /\ all_unavailable (globals bare_world) = true
  /\ available (import_habana_hpu cpu_machine) = false
  /\ run (dynamically_import_QuantLinear cpu_machine false true 128 4
            None false false false false false) bare_world
     = (inl unbound_warned, bare_world)
  /\ run (dynamically_import_QuantLinear cpu_machine false true 128 4
            None false false false false false)
       {| globals := bind_warned false (globals bare_world); records := [] |}
     = (inl (ValueError
          "IPEX appears to be not available with the error: No module named 'intel_extension_for_pytorch'. Please install with `pip install intel-extension-for-pytorch`."),
        warned_once bare_world).
Proof. repeat split. Qed.

(** C2.  When [habana_frameworks.torch.hpu] can be imported, the selector
    returns the HPU class for every configuration, every preference and
    every world, and leaves the world as it was: no flag is read, nothing is
    logged. *)
Theorem C2_hpu_first
    (rt : Runtime) (w : World) (use_triton desc_act : bool)
    (group_size bits : Z) (disable_exllama : option bool)
    (disable_exllamav2 use_qigen use_marlin use_tritonv2 use_ipex : bool) :
  import_habana_hpu rt = Imported ->
  run (dynamically_import_QuantLinear rt use_triton desc_act group_size bits
         disable_exllama disable_exllamav2 use_qigen use_marlin use_tritonv2
         use_ipex) w
  = (inr qlinear_hpu, w).
Proof.
  intros H. unfold dynamically_import_QuantLinear. rewrite H. reflexivity.
Qed.

Lemma C2_hpu_first_witness :
  run (dynamically_import_QuantLinear hpu_machine true false (-1) 8
         (Some false) true true true true true) bare_world
  = (inr qlinear_hpu, bare_world).
Proof.
  apply (C2_hpu_first hpu_machine bare_world true false (-1) 8 (Some false)
           true true true true true).
  reflexivity.
Defined.

(** C3, at an input where the code departs from it.  Nothing is installed,
    there is neither HPU nor CUDA, and triton is asked for with
    [use_ipex] left false: the call raises the [NameError] of the unbound
    [_warned] before it comes to the triton branch. *)
Theorem C3_triton_without_cuda_and_ipex :
  fresh_world nothing_installed = inr bare_world
  /\ available (import_habana_hpu cpu_machine) = false
  /\ run (dynamically_import_QuantLinear cpu_machine true true 128 4
            None false false false false false) bare_world
     = (inl unbound_warned, bare_world)
  /\ run (dynamically_import_QuantLinear cpu_machine false true 128 4
            None false false false true false) bare_world
     = (inl unbound_warned, bare_world).
Proof. repeat split. Qed.

(** C4.  In the default family (no HPU, CUDA available, none of
    [use_qigen], [use_triton], [use_tritonv2], [use_ipex]), bits = 4 with
    [use_marlin] returns the Marlin class, whatever the capability flags
    and the two exllama switches are. *)
Theorem C4_marlin_first
    (rt : Runtime) (w : World) (desc_act : bool) (group_size : Z)
    (disable_exllama : option bool) (disable_exllamav2 : bool) :
  available (import_habana_hpu rt) = false ->
  cuda_is_available rt = true ->
  run (dynamically_import_QuantLinear rt false desc_act group_size 4
         disable_exllama disable_exllamav2 false true false false) w
  = (inr qlinear_marlin, w).
Proof.
  intros Hh Hc. rewrite (default_family _ _ _ _ _ _ _ _ Hh Hc). reflexivity.
Qed.

Lemma C4_marlin_first_witness :
  EXLLAMAV2_KERNELS_AVAILABLE (globals full_world) = true
  /\ run (dynamically_import_QuantLinear cuda_machine false true 128 4
            None false false true false false) full_world
     = (inr qlinear_marlin, full_world).
Proof.
  split; [reflexivity | ].
  apply (C4_marlin_first cuda_machine full_world true 128 None false);
    reflexivity.
Defined.

(** C5.  In the default family an unset [disable_exllama] stands for false
    when [disable_exllamav2] is true and for true otherwise, and a given
    value is kept.  This is stated on the selector: a call that leaves
    [disable_exllama] unset gives what the call with the derived value
    gives; and where line 130 decides (bits = 4, no Marlin, exllama-v2
    disabled or unavailable, exllama-v1 available) the call returns the
    exllama-v1 class exactly when the value, given or derived, is false,
    and a CUDA class otherwise.  So the default preference with bits = 4,
    group_size = 128, desc_act = true and the exllama-v2 kernels available
    returns the exllama-v2 class. *)
Theorem C5_exllamav2_by_default (rt : Runtime) (w : World) :
  available (import_habana_hpu rt) = false ->
  cuda_is_available rt = true ->
  (forall (desc_act : bool) (group_size bits : Z)
          (disable_exllamav2 use_marlin : bool),
      run (dynamically_import_QuantLinear rt false desc_act group_size bits
             None disable_exllamav2 false use_marlin false false) w
      = run (dynamically_import_QuantLinear rt false desc_act group_size bits
               (Some (negb disable_exllamav2)) disable_exllamav2 false
               use_marlin false false) w)
  /\ (forall (desc_act : bool) (group_size : Z)
             (disable_exllama : option bool) (disable_exllamav2 : bool),
        EXLLAMA_KERNELS_AVAILABLE (globals w) = true ->
        disable_exllamav2 = true
        \/ EXLLAMAV2_KERNELS_AVAILABLE (globals w) = false ->
        run (dynamically_import_QuantLinear rt false desc_act group_size 4
               disable_exllama disable_exllamav2 false false false false) w
        = (inr (match disable_exllama with
                | Some false => qlinear_exllama
                | Some true =>
                    if negb desc_act || (group_size =? -1)
                    then qlinear_cuda_old else qlinear_cuda
                | None =>
                    if disable_exllamav2 then qlinear_exllama
                    else if negb desc_act || (group_size =? -1)
                         then qlinear_cuda_old else qlinear_cuda
                end), w))
  /\ resolve_disable_exllama None true = false
  /\ resolve_disable_exllama None false = true
  /\ (forall b v2 : bool, resolve_disable_exllama (Some b) v2 = b)
  /\ (EXLLAMAV2_KERNELS_AVAILABLE (globals w) = true ->
      run (dynamically_import_QuantLinear rt false true 128 4
             None false false false false false) w
      = (inr qlinear_exllamav2, w)).
Proof.
  intros Hh Hc.
  split; [ | split; [ | split; [reflexivity | split; [reflexivity | split]]]].
  - intros desc_act group_size bits disable_exllamav2 use_marlin.
    rewrite !(default_family _ _ _ _ _ _ _ _ Hh Hc).
    destruct disable_exllamav2; reflexivity.
  - intros desc_act group_size disable_exllama disable_exllamav2 H1 H2.
    rewrite (default_family _ _ _ _ _ _ _ _ Hh Hc), H1.
    assert (K : negb disable_exllamav2
                && EXLLAMAV2_KERNELS_AVAILABLE (globals w) = false).
    { destruct H2 as [-> | ->]; [reflexivity | apply andb_false_r]. }
    change (4 =? 4) with true. cbv iota. simpl andb at 1 2.
    rewrite K.
    destruct disable_exllama as [[|] |], disable_exllamav2; reflexivity.
  - reflexivity.
  - intros Hv2.
    rewrite (default_family _ _ _ _ _ _ _ _ Hh Hc), Hv2. reflexivity.
Qed.

Lemma C5_exllamav2_by_default_witness :
  run (dynamically_import_QuantLinear cuda_machine false true 128 4
         None false false false false false) full_world
  = (inr qlinear_exllamav2, full_world)
  /\ run (dynamically_import_QuantLinear cuda_machine false true 128 4
            None true false false false false) full_world
     = (inr qlinear_exllama, full_world)
  /\ run (dynamically_import_QuantLinear cuda_machine false true 128 4
            None false false false false false) exllama_world
     = (inr qlinear_cuda, exllama_world)
  /\ run (dynamically_import_QuantLinear cuda_machine false true 128 4
            (Some false) false false false false false) exllama_world
     = (inr qlinear_exllama, exllama_world).
Proof.
  pose proof (C5_exllamav2_by_default cuda_machine full_world
                eq_refl eq_refl) as (_ & Hfull & _ & _ & _ & Hv2).
  pose proof (C5_exllamav2_by_default cuda_machine exllama_world
                eq_refl eq_refl) as (_ & Hex & _).
  split; [exact (Hv2 eq_refl) | split; [ | split]].
  - exact (Hfull true 128 None true eq_refl (or_introl eq_refl)).
  - exact (Hex true 128 None false eq_refl (or_intror eq_refl)).
  - exact (Hex true 128 (Some false) false eq_refl (or_intror eq_refl)).
Defined.

(** C6, at an input where the code departs from it.  Nothing is installed,
    there is neither HPU nor CUDA, and [use_ipex] is left false, so that
    line 94 would turn it on.  With bits = 4 the claim asks for an error
    that carries the text captured by the probe of IPEX, and with bits = 8
    for the assertion on the bit width; both calls raise the [NameError] of
    the unbound [_warned] instead, whose text does not carry the captured
    one. *)
Theorem C6_forced_ipex_without_latch :
  fresh_world nothing_installed = inr bare_world
  /\ IPEX_AVAILABLE (globals bare_world) = false
  /\ IPEX_EXCEPTION (globals bare_world) = Some (ImportError ipex_missing)
  /\ run (dynamically_import_QuantLinear cpu_machine false true 128 4
            None false false false false false) bare_world
     = (inl unbound_warned, bare_world)
  /\ ~ Contains ipex_missing (str_exn unbound_warned)
  /\ run (dynamically_import_QuantLinear cpu_machine false true 128 8
            None false false false false false) bare_world
     = (inl unbound_warned, bare_world).
Proof.
  repeat split.
  intros H. apply Contains_length in H. vm_compute in H. lia.
Qed.

(** C7, at an input where the code departs from it.  [cQIGen] alone is
    installed, there is neither HPU nor CUDA, and [use_qigen] is asked for
    with [use_ipex] left false: the claim asks for the QIGen class, the call
    raises the [NameError] of the unbound [_warned]. *)
Theorem C7_qigen_without_cuda_and_ipex :
  fresh_world only_qigen = inr qigen_world
  /\ QIGEN_AVAILABLE (globals qigen_world) = true
  /\ available (import_habana_hpu cpu_machine) = false
  /\ run (dynamically_import_QuantLinear cpu_machine false true 128 4
            None false true false false false) qigen_world
     = (inl unbound_warned, qigen_world).
Proof. repeat split. Qed.

(** C8.  In the default family, when none of the Marlin, exllama-v2 and
    exllama-v1 tests of lines 126-130 holds, the selector returns
    [qlinear_cuda_old] if and only if [desc_act] is false or [group_size]
    is -1, and [qlinear_cuda] otherwise.  In particular the default
    preference with bits = 4, group_size = -1, desc_act = false and both
    exllama flags false returns [qlinear_cuda_old]. *)
Theorem C8_cuda_fallbacks
    (rt : Runtime) (w : World) (desc_act : bool) (group_size bits : Z)
    (disable_exllama : option bool) (disable_exllamav2 use_marlin : bool) :
  available (import_habana_hpu rt) = false ->
  cuda_is_available rt = true ->
  (bits =? 4) && use_marlin = false ->
  (bits =? 4) && negb disable_exllamav2
    && EXLLAMAV2_KERNELS_AVAILABLE (globals w) = false ->
  (bits =? 4)
    && negb (resolve_disable_exllama disable_exllama disable_exllamav2)
    && EXLLAMA_KERNELS_AVAILABLE (globals w) = false ->
  let result :=
    run (dynamically_import_QuantLinear rt false desc_act group_size bits
           disable_exllama disable_exllamav2 false use_marlin false false) w
  in
  (result = (inr qlinear_cuda_old, w)
   <-> desc_act = false \/ group_size = -1)
  /\ (result = (inr qlinear_cuda, w)
      <-> ~ (desc_act = false \/ group_size = -1))
  /\ (result = (inr qlinear_cuda_old, w) \/ result = (inr qlinear_cuda, w))
  /\ (EXLLAMAV2_KERNELS_AVAILABLE (globals w) = false ->
      EXLLAMA_KERNELS_AVAILABLE (globals w) = false ->
      run (dynamically_import_QuantLinear rt false false (-1) 4
             None false false false false false) w
      = (inr qlinear_cuda_old, w)).
Proof.
  intros Hh Hc Hm H2 H1 result. subst result.
  rewrite !(default_family _ _ _ _ _ _ _ _ Hh Hc), Hm, H2, H1.
  repeat split.
  - destruct desc_act; [ | now left].
    destruct (Z.eqb_spec group_size (-1)); [now right | ].
    simpl. discriminate.
  - intros [-> | ->]; [reflexivity | destruct desc_act; reflexivity].
  - destruct desc_act; [ | simpl; discriminate].
    destruct (Z.eqb_spec group_size (-1)); [simpl; discriminate | ].
    intros _ [K | K]; [discriminate K | contradiction].
  - intros K. destruct desc_act; [ | exfalso; apply K; now left].
    destruct (Z.eqb_spec group_size (-1));
      [exfalso; apply K; now right | reflexivity].
  - destruct (negb desc_act || (group_size =? -1)); [now left | now right].
  - intros -> ->. reflexivity.
Qed.

Lemma C8_cuda_fallbacks_witness :
  run (dynamically_import_QuantLinear cuda_machine false false (-1) 4
         None false false false false false) bare_world
  = (inr qlinear_cuda_old, bare_world)
  /\ run (dynamically_import_QuantLinear cuda_machine false true 128 8
            (Some false) false false true false false) full_world
     = (inr qlinear_cuda, full_world).
Proof.
  split.
  - apply (C8_cuda_fallbacks cuda_machine bare_world false (-1) 4 None
             false false); reflexivity.
  - apply (C8_cuda_fallbacks cuda_machine full_world true 128 8 (Some false)
             false true); try reflexivity.
    intros [K | K]; discriminate K.
Defined.

(** C10.  With [disable_exllama] unset and [disable_exllamav2] false, no
    call returns the exllama-v1 class, whatever the runtime, the world, the
    configuration and the other preferences are.  The class is returned
    once [disable_exllama] is passed as false, and once it is left unset
    with [disable_exllamav2] true. *)
Theorem C10_no_exllama_by_default :
  (forall (rt : Runtime) (w : World) (use_triton desc_act : bool)
          (group_size bits : Z)
          (use_qigen use_marlin use_tritonv2 use_ipex : bool),
      fst (run (dynamically_import_QuantLinear rt use_triton desc_act
                  group_size bits None false use_qigen use_marlin
                  use_tritonv2 use_ipex) w)
      <> inr qlinear_exllama)
  /\ fst (run (dynamically_import_QuantLinear cuda_machine false true 128 4
                 (Some false) true false false false false) full_world)
     = inr qlinear_exllama
  /\ fst (run (dynamically_import_QuantLinear cuda_machine false true 128 4
                 None true false false false false) full_world)
     = inr qlinear_exllama.
Proof.
  split; [ | split; reflexivity].
  intros. unfold dynamically_import_QuantLinear.
  destruct (import_habana_hpu rt); [discriminate | ].
  rewrite run_bind.
  destruct (run (force_ipex rt use_ipex) w) as [[e' | u'] w'];
    [discriminate | ].
  cascade.
  destruct use_qigen.
  { destruct (QIGEN_AVAILABLE (globals w')); discriminate. }
  destruct (use_triton || use_tritonv2).
  { destruct (truthy (version_hip rt)), use_tritonv2; discriminate. }
  destruct u'.
  { destruct (bits =? 4), (IPEX_AVAILABLE (globals w')); discriminate. }
  unfold resolve_disable_exllama. rewrite andb_false_r. simpl.
  destruct ((bits =? 4) && use_marlin); [discriminate | ].
  destruct ((bits =? 4) && true && EXLLAMAV2_KERNELS_AVAILABLE (globals w'));
    [discriminate | ].
  destruct (negb desc_act || (group_size =? -1)); discriminate.
Qed.

(** ** The claim on the comparators *)

Lemma op_in_operators_In (op : string) :
  op_in_operators op = true <-> In op operators.
Proof.
  unfold op_in_operators. rewrite existsb_exists. split.
  - intros (x & Hx & He). apply String.eqb_eq in He. now subst x.
  - intros H. exists op. split; [exact H | apply String.eqb_refl].
Qed.

(** C9.  Both comparators raise an [AssertionError] for every operator
    outside eq, lt, le, gt, ge, for instance neq, before anything else is
    looked at.  For each of the five operators, when the installed version
    and the target both parse, they return what the comparison method of
    that name gives on the installed version, as receiver, and the target,
    as argument. *)
Theorem C9_comparators {P : Packaging} (rt : Runtime) (version : string) :
  (forall op : string, ~ In op operators ->
     compare_transformers_version rt version op = inl (AssertionError EmptyString)
     /\ compare_pytorch_version rt version op = inl (AssertionError EmptyString))
  /\ compare_transformers_version rt version "neq" = inl (AssertionError EmptyString)
  /\ compare_pytorch_version rt version "neq" = inl (AssertionError EmptyString)
  /\ (forall (installed : string) (a b : Version),
        parse_version installed = inr a ->
        parse_version version = inr b ->
        (transformers_version rt = inr installed ->
           compare_transformers_version rt version "eq" = inr (__eq__ a b)
           /\ compare_transformers_version rt version "lt" = inr (__lt__ a b)
           /\ compare_transformers_version rt version "le" = inr (__le__ a b)
           /\ compare_transformers_version rt version "gt" = inr (__gt__ a b)
           /\ compare_transformers_version rt version "ge" = inr (__ge__ a b))
        /\ (torch_version rt = installed ->
              compare_pytorch_version rt version "eq" = inr (__eq__ a b)
              /\ compare_pytorch_version rt version "lt" = inr (__lt__ a b)
              /\ compare_pytorch_version rt version "le" = inr (__le__ a b)
              /\ compare_pytorch_version rt version "gt" = inr (__gt__ a b)
              /\ compare_pytorch_version rt version "ge" = inr (__ge__ a b))).
Proof.
  split; [ | split; [reflexivity | split; [reflexivity | ]]].
  - intros op Hop.
    assert (H : op_in_operators op = false).
    { destruct (op_in_operators op) eqn:E; [ | reflexivity].
      apply op_in_operators_In in E. contradiction. }
    unfold compare_transformers_version, compare_pytorch_version.
    rewrite H. split; reflexivity.
  - intros installed a b Ha Hb. split.
    + intros Ht.
      unfold compare_transformers_version, compare_installed. simpl.
      rewrite Ht, Ha, Hb. repeat split.
    + intros Ht.
      unfold compare_pytorch_version, compare_installed. simpl.
      rewrite Ht, Ha, Hb. repeat split.
Qed.

Lemma C9_comparators_witness :
  compare_transformers_version (P := Release.packaging)
    cuda_machine "v4.28.0" "ne" = inl (AssertionError EmptyString)
  /\ compare_transformers_version (P := Release.packaging)
       cuda_machine "v4.28.0" "eq" = inr true
  /\ compare_pytorch_version (P := Release.packaging)
       cuda_machine "v2.1" "lt" = inr true.
Proof.
  pose proof (C9_comparators (P := Release.packaging) cuda_machine "v4.28.0")
    as (Hout & _ & _ & Hin).
  pose proof (C9_comparators (P := Release.packaging) cuda_machine "v2.1")
    as (_ & _ & _ & Hin').
  split; [ | split].
  - apply (Hout "ne"). simpl. intuition discriminate.
  - destruct (Hin "4.28.0" [4; 28; 0]%N [4; 28; 0]%N eq_refl eq_refl)
      as [Ht _].
    exact (proj1 (Ht eq_refl)).
  - destruct (Hin' "2.0.0" [2; 0; 0]%N [2; 1]%N eq_refl eq_refl) as [_ Hp].
    exact (proj1 (proj2 (Hp eq_refl))).
Defined.

(** * Further properties of the module *)

(** ** Closed forms *)

(** Lines 89-94 in one equation. *)
Lemma force_ipex_run (rt : Runtime) (u : bool) (w : World) :
  run (force_ipex rt u) w
  = if cuda_is_available rt || u then (inr u, w)
    else match _warned (globals w) with
         | None => (inl unbound_warned, w)
         | Some false => (inr true, warned_once w)
         | Some true => (inr true, w)
         end.
Proof.
  unfold force_ipex, run.
  destruct (cuda_is_available rt), u; simpl; try reflexivity.
  destruct (_warned (globals w)) as [[|]|]; reflexivity.
Qed.

Lemma logged_nil (w : World) : logged [] w = w.
Proof. destruct w. unfold logged. simpl. now rewrite app_nil_r. Qed.

(** A call in one equation: what it gives and the world it leaves, from
    what [force_ipex] gave and left. *)
Lemma selector_run (rt : Runtime) (w : World)
    (use_triton desc_act : bool) (group_size bits : Z)
    (disable_exllama : option bool)
    (disable_exllamav2 use_qigen use_marlin use_tritonv2 use_ipex : bool) :
  run (dynamically_import_QuantLinear rt use_triton desc_act group_size bits
         disable_exllama disable_exllamav2 use_qigen use_marlin use_tritonv2
         use_ipex) w
  = match import_habana_hpu rt with
    | Imported => (inr qlinear_hpu, w)
    | Raised _ =>
        match run (force_ipex rt use_ipex) w with
        | (inl e, w1) => (inl e, w1)
        | (inr u, w1) =>
            if use_qigen then
              (if QIGEN_AVAILABLE (globals w1) then inr qlinear_qigen
               else inl (qigen_unavailable (globals w1)), w1)
            else if use_triton || use_tritonv2 then
              (inr (if use_tritonv2 then qlinear_tritonv2 else qlinear_triton),
               logged (triton_records rt use_tritonv2) w1)
            else if u then
              (if negb (bits =? 4) then inl ipex_needs_4bit
               else if IPEX_AVAILABLE (globals w1) then inr qlinear_ipex
               else inl (ipex_unavailable (globals w1)), w1)
            else
              (inr (default_choice (globals w1) desc_act group_size bits
                      disable_exllama disable_exllamav2 use_marlin), w1)
        end
    end.
Proof.
  unfold dynamically_import_QuantLinear.
  destruct (import_habana_hpu rt); [reflexivity | ].
  rewrite run_bind.
  destruct (run (force_ipex rt use_ipex) w) as [[e' | u'] w'];
    [reflexivity | ].
  cascade.
  destruct use_qigen.
  { destruct (QIGEN_AVAILABLE (globals w')); reflexivity. }
  destruct (use_triton || use_tritonv2).
  { unfold triton_records, logged.
    destruct (truthy (version_hip rt)), use_tritonv2; simpl;
      try reflexivity.
    - unfold run. simpl. now rewrite <- app_assoc.
    - destruct w'. unfold run. simpl. now rewrite app_nil_r. }
  destruct u'.
  { destruct (bits =? 4), (IPEX_AVAILABLE (globals w')); reflexivity. }
  unfold default_choice.
  destruct ((bits =? 4) && use_marlin); [reflexivity | ].
  destruct ((bits =? 4) && negb disable_exllamav2
            && EXLLAMAV2_KERNELS_AVAILABLE (globals w')); [reflexivity | ].
  destruct ((bits =? 4)
            && negb (resolve_disable_exllama disable_exllama disable_exllamav2)
            && EXLLAMA_KERNELS_AVAILABLE (globals w')); [reflexivity | ].
  destruct (negb desc_act || (group_size =? -1)); reflexivity.
Qed.

Lemma same_capabilities_refl (g : Globals) : same_capabilities g g.
Proof. unfold same_capabilities. repeat split. Qed.

Lemma same_capabilities_bind (b : bool) (g : Globals) :
  same_capabilities g (bind_warned b g).
Proof. unfold same_capabilities. repeat split. Qed.

Lemma same_capabilities_trans (g1 g2 g3 : Globals) :
  same_capabilities g1 g2 -> same_capabilities g2 g3 ->
  same_capabilities g1 g3.
Proof.
  unfold same_capabilities. intros H12 H23.
  repeat match goal with
         | H : _ /\ _ |- _ => destruct H
         end.
  repeat split; congruence.
Qed.

(** ** The probe *)

(** A module that was imported has the globals of the probe. *)
Lemma module_init_globals (i : Imports) (g : Globals) :
  module_init i = inr g -> exists t : bool, g = probe_globals t i.
Proof.
  unfold module_init. intros H. destruct (import_triton i) as [| e].
  - exists true. congruence.
  - destruct (is_ImportError e); [exists false; congruence | discriminate].
Qed.

(** X1.  What the probe leaves.  The import of the module fails exactly
    when the import of triton raises something that is no [ImportError];
    failures of the six other extensions never make it fail.  When it
    succeeds, each of the three recorded diagnostics is [None] exactly when
    its flag is true and holds the exception of the import otherwise, and
    [_warned] is bound, to [False], exactly when IPEX is available. *)
Theorem X1_probe_outcome (i : Imports) :
  (forall e : exn,
      module_init i = inl e
      <-> import_triton i = Raised e /\ is_ImportError e = false)
  /\ (forall g : Globals,
        module_init i = inr g ->
        (QIGEN_AVAILABLE g = true <-> QIGEN_EXCEPTION g = None)
        /\ (MARLIN_AVAILABLE g = true <-> MARLIN_EXCEPTION g = None)
        /\ (IPEX_AVAILABLE g = true <-> IPEX_EXCEPTION g = None)
        /\ QIGEN_EXCEPTION g = captured (import_cQIGen i)
        /\ MARLIN_EXCEPTION g = captured (import_autogptq_marlin_cuda i)
        /\ IPEX_EXCEPTION g = captured (import_intel_extension_for_pytorch i)
        /\ _warned g = (if IPEX_AVAILABLE g then Some false else None)).
Proof.
  split.
  - intros e. unfold module_init. split.
    + destruct (import_triton i) as [| e0]; [discriminate | ].
      destruct (is_ImportError e0) eqn:E; [discriminate | ].
      intros H. injection H as <-. now split.
    + intros [-> ->]. reflexivity.
  - intros g H. destruct (module_init_globals i g H) as [t ->]. simpl.
    destruct (import_cQIGen i), (import_autogptq_marlin_cuda i),
      (import_intel_extension_for_pytorch i); simpl;
      repeat split; intros; congruence.
Qed.

(** ** What calls do to the world *)

Lemma force_ipex_world (rt : Runtime) (u : bool) (w : World) :
  let w' := snd (run (force_ipex rt u) w) in
  w' = w
  \/ (w' = warned_once w
      /\ _warned (globals w) = Some false
      /\ cuda_is_available rt = false /\ u = false).
Proof.
  rewrite force_ipex_run.
  destruct (cuda_is_available rt), u; simpl; auto.
  destruct (_warned (globals w)) as [[|]|]; simpl; auto.
Qed.

(** The world that a call leaves: the one [force_ipex] left, with the
    records of the triton branch after it when that branch was taken. *)
Lemma selector_world (rt : Runtime) (w : World)
    (use_triton desc_act : bool) (group_size bits : Z)
    (disable_exllama : option bool)
    (disable_exllamav2 use_qigen use_marlin use_tritonv2 use_ipex : bool) :
  exists l : list (level * string),
    snd (run (dynamically_import_QuantLinear rt use_triton desc_act
                group_size bits disable_exllama disable_exllamav2 use_qigen
                use_marlin use_tritonv2 use_ipex) w)
    = logged l (match import_habana_hpu rt with
                | Imported => w
                | Raised _ => snd (run (force_ipex rt use_ipex) w)
                end)
    /\ (l = [] \/ l = triton_records rt use_tritonv2).
Proof.
  rewrite selector_run.
  destruct (import_habana_hpu rt).
  { exists []. rewrite logged_nil. auto. }
  destruct (run (force_ipex rt use_ipex) w) as [[e' | u'] w'].
  { exists []. rewrite logged_nil. auto. }
  destruct use_qigen.
  { exists []. rewrite logged_nil. auto. }
  destruct (use_triton || use_tritonv2).
  { exists (triton_records rt use_tritonv2). auto. }
  destruct u'; exists []; rewrite logged_nil; auto.
Qed.

Lemma filter_triton_records (rt : Runtime) (v2 : bool) :
  filter is_no_cuda_warning (triton_records rt v2) = [].
Proof.
  unfold triton_records. destruct (truthy (version_hip rt)), v2; reflexivity.
Qed.

Lemma no_cuda_warnings_logged (l : list (level * string)) (w : World) :
  no_cuda_warnings (logged l w)
  = (no_cuda_warnings w + List.length (filter is_no_cuda_warning l))%nat.
Proof.
  unfold no_cuda_warnings, logged. simpl.
  now rewrite filter_app, length_app.
Qed.

(** One call: either the globals and the number of warnings stay, or the
    latch goes from [False] to [True] and one warning is added. *)
Lemma selector_step (rt : Runtime) (c : Call) (w : World) :
  let w' := snd (run (call rt c) w) in
  (globals w' = globals w /\ no_cuda_warnings w' = no_cuda_warnings w)
  \/ (_warned (globals w) = Some false
      /\ globals w' = bind_warned true (globals w)
      /\ no_cuda_warnings w' = S (no_cuda_warnings w)
      /\ available (import_habana_hpu rt) = false
      /\ cuda_is_available rt = false /\ c_use_ipex c = false).
Proof.
  unfold call.
  destruct (selector_world rt w (c_use_triton c) (c_desc_act c)
              (c_group_size c) (c_bits c) (c_disable_exllama c)
              (c_disable_exllamav2 c) (c_use_qigen c) (c_use_marlin c)
              (c_use_tritonv2 c) (c_use_ipex c)) as (l & -> & Hl).
  assert (Hf : filter is_no_cuda_warning l = []).
  { destruct Hl as [-> | ->]; [reflexivity | apply filter_triton_records]. }
  cbv zeta. rewrite no_cuda_warnings_logged, Hf. simpl List.length.
  rewrite Nat.add_0_r.
  change (globals (logged l ?x)) with (globals x).
  destruct (import_habana_hpu rt); [now left | ].
  destruct (force_ipex_world rt (c_use_ipex c) w) as [-> | (-> & Hw & Hc & Hu)];
    [now left | ].
  right. repeat split; try assumption.
  unfold no_cuda_warnings, warned_once. simpl.
  rewrite filter_app, length_app. simpl. lia.
Qed.

(** X2.  No sequence of calls changes a capability flag or a recorded
    diagnostic: whatever was called, and on whatever runtime, the world
    differs from the one the calls started in on [_warned] and the log at
    most. *)
Theorem X2_calls_keep_capabilities
    (cs : list (Runtime * Call)) (w : World) :
  same_capabilities (globals w) (globals (after_calls cs w)).
Proof.
  revert w. induction cs as [| [rt c] cs IH]; intros w; simpl.
  - apply same_capabilities_refl.
  - eapply same_capabilities_trans; [ | apply IH].
    destruct (selector_step rt c w) as [[-> _] | (_ & -> & _)].
    + apply same_capabilities_refl.
    + apply same_capabilities_bind.
Qed.

(** X3.  The warning of line 92 is given at most once: over any sequence
    of calls its count grows by one at most, and it does not grow at all
    unless [_warned] was [False] at the start. *)
Theorem X3_warning_at_most_once (cs : list (Runtime * Call)) (w : World) :
  (no_cuda_warnings w <= no_cuda_warnings (after_calls cs w))%nat
  /\ (no_cuda_warnings (after_calls cs w)
      <= no_cuda_warnings w
         + match _warned (globals w) with
           | Some false => 1
           | _ => 0
           end)%nat.
Proof.
  revert w. induction cs as [| [rt c] cs IH]; intros w; simpl.
  - lia.
  - specialize (IH (snd (run (call rt c) w))).
    destruct (selector_step rt c w) as [[Hg Hn] | (Hw & Hg & Hn & _)].
    + rewrite Hg, Hn in IH. exact IH.
    + rewrite Hg, Hn in IH. rewrite Hw. cbn in IH. lia.
Qed.

Lemma after_calls_unbound (cs : list (Runtime * Call)) (w : World) :
  _warned (globals w) = None -> _warned (globals (after_calls cs w)) = None.
Proof.
  revert w. induction cs as [| [rt c] cs IH]; intros w Hw; simpl.
  - exact Hw.
  - apply IH.
    destruct (selector_step rt c w) as [[-> _] | (Hf & _)]; congruence.
Qed.

Lemma after_calls_bound (cs : list (Runtime * Call)) (w : World) :
  _warned (globals w) <> None -> _warned (globals (after_calls cs w)) <> None.
Proof.
  revert w. induction cs as [| [rt c] cs IH]; intros w Hw; simpl.
  - exact Hw.
  - apply IH.
    destruct (selector_step rt c w) as [[-> _] | (_ & -> & _)];
      [exact Hw | discriminate].
Qed.

(** X4.  Where the import of IPEX failed, [_warned] is never bound: after
    any sequence of calls, every call that meets neither HPU nor CUDA and
    leaves [use_ipex] false raises the [NameError] of line 91, whatever its
    other arguments are, and leaves the world as it was. *)
Theorem X4_without_ipex_and_cuda
    (i : Imports) (g : Globals) (cs : list (Runtime * Call))
    (rt : Runtime) (c : Call) :
  module_init i = inr g ->
  available (import_intel_extension_for_pytorch i) = false ->
  available (import_habana_hpu rt) = false ->
  cuda_is_available rt = false ->
  c_use_ipex c = false ->
  let w := after_calls cs {| globals := g; records := [] |} in
  run (call rt c) w = (inl unbound_warned, w).
Proof.
  intros Hi Hx Hh Hc Hu w.
  assert (Hw : _warned (globals w) = None).
  { apply after_calls_unbound. simpl.
    destruct (module_init_globals i g Hi) as [t ->]. simpl.
    destruct (import_intel_extension_for_pytorch i);
      [discriminate Hx | reflexivity]. }
  unfold call. rewrite selector_run, force_ipex_run, Hc, Hu, Hw.
  destruct (import_habana_hpu rt); [discriminate Hh | reflexivity].
Qed.

Lemma X4_without_ipex_and_cuda_witness :
  run (call cpu_machine plain_call)
      (after_calls [(cuda_machine, plain_call); (cpu_machine, plain_call)]
         bare_world)
  = (inl unbound_warned, bare_world).
Proof.
  apply (X4_without_ipex_and_cuda nothing_installed
           (probe_globals false nothing_installed)
           [(cuda_machine, plain_call); (cpu_machine, plain_call)]
           cpu_machine plain_call); reflexivity.
Defined.

(** X5.  Where the import of IPEX succeeded, [_warned] stays bound: after
    any sequence of calls, no call raises a [NameError]. *)
Theorem X5_with_ipex_no_NameError
    (i : Imports) (g : Globals) (cs : list (Runtime * Call))
    (rt : Runtime) (c : Call) (m : string) :
  module_init i = inr g ->
  import_intel_extension_for_pytorch i = Imported ->
  fst (run (call rt c) (after_calls cs {| globals := g; records := [] |}))
  <> inl (NameError m).
Proof.
  intros Hi Hx.
  set (w := after_calls cs {| globals := g; records := [] |}).
  assert (Hw : _warned (globals w) <> None).
  { apply after_calls_bound. simpl.
    destruct (module_init_globals i g Hi) as [t ->]. simpl.
    rewrite Hx. discriminate. }
  unfold call. rewrite selector_run, force_ipex_run.
  destruct (import_habana_hpu rt); [discriminate | ].
  destruct (cuda_is_available rt || c_use_ipex c);
    [ | destruct (_warned (globals w)) as [[|]|]; [ | | contradiction]];
    simpl;
    (destruct (c_use_qigen c);
     [destruct (QIGEN_AVAILABLE _); discriminate | ];
     destruct (c_use_triton c || c_use_tritonv2 c); [discriminate | ];
     try destruct (c_use_ipex c);
     try (destruct (c_bits c =? 4), (IPEX_AVAILABLE _); discriminate);
     discriminate).
Qed.

Lemma X5_with_ipex_no_NameError_witness :
  fst (run (call cpu_machine plain_call)
         (after_calls [(cpu_machine, plain_call)] ipex_world))
  <> inl unbound_warned.
Proof.
  apply (X5_with_ipex_no_NameError only_ipex (probe_globals false only_ipex)
           [(cpu_machine, plain_call)] cpu_machine plain_call
           "name '_warned' is not defined"); reflexivity.
Defined.

Lemma X1_probe_outcome_witness :
  module_init only_qigen = inr (probe_globals false only_qigen)
  /\ QIGEN_EXCEPTION (probe_globals false only_qigen) = None
  /\ _warned (probe_globals false only_qigen) = None.
Proof.
  split; [reflexivity | ].
  destruct (proj2 (X1_probe_outcome only_qigen)
              (probe_globals false only_qigen) eq_refl)
    as (Hq & _ & _ & _ & _ & _ & Hw).
  split; [apply Hq; reflexivity | exact Hw].
Defined.

(** Case analysis on everything a call looks at. *)
Ltac selector_cases rt w use_qigen use_triton use_tritonv2 use_ipex bits :=
  destruct (import_habana_hpu rt);
  [ | destruct (cuda_is_available rt), use_ipex;
      simpl orb; cbv iota;
      try destruct (_warned (globals w)) as [[|]|] eqn:?;
      cbv iota beta; simpl globals;
      destruct use_qigen;
      try destruct (QIGEN_AVAILABLE (globals w)) eqn:?;
      try destruct (use_triton || use_tritonv2) eqn:?;
      try destruct (bits =? 4) eqn:?;
      try destruct (IPEX_AVAILABLE (globals w)) eqn:? ].

(** X6.  Calling again with the same arguments on the same runtime gives
    what the first call gave, be it a class or an exception, and the second
    call changes no global and adds no warning of line 92. *)
Theorem X6_second_call_same (rt : Runtime) (c : Call) (w : World) :
  let w1 := snd (run (call rt c) w) in
  fst (run (call rt c) w1) = fst (run (call rt c) w)
  /\ globals (snd (run (call rt c) w1)) = globals w1
  /\ no_cuda_warnings (snd (run (call rt c) w1)) = no_cuda_warnings w1.
Proof.
  cbv zeta.
  assert (H1 : fst (run (call rt c) (snd (run (call rt c) w)))
               = fst (run (call rt c) w)).
  { unfold call. rewrite !selector_run, !force_ipex_run.
    selector_cases rt w (c_use_qigen c) (c_use_triton c) (c_use_tritonv2 c)
                   (c_use_ipex c) (c_bits c);
      simpl; rewrite ?force_ipex_run; simpl;
      repeat match goal with
             | H : _ = _ |- _ => rewrite H
             end; try reflexivity. }
  split; [exact H1 | ].
  destruct (selector_step rt c (snd (run (call rt c) w)))
    as [[Hg Hn] | (Hw & _ & _ & Hh & Hc & Hu)]; [now split | exfalso].
  destruct (selector_step rt c w) as [[Hg _] | (_ & Hg & _)];
    rewrite Hg in Hw; [ | discriminate Hw].
  revert Hg. unfold call. rewrite selector_run, force_ipex_run, Hc, Hu, Hw.
  destruct (import_habana_hpu rt); [discriminate Hh | ]. simpl.
  destruct (c_use_qigen c); [destruct (QIGEN_AVAILABLE _) | ];
    try (destruct (c_use_triton c || c_use_tritonv2 c));
    try (destruct (c_bits c =? 4)); try (destruct (IPEX_AVAILABLE _));
    simpl; intros Hg; rewrite <- Hg in Hw; discriminate Hw.
Qed.

(** X7.  When a call raises.  A call raises if and only if the HPU
    extension is absent and one of three things holds: line 91 reads an
    unbound [_warned] (no CUDA, [use_ipex] false); or that is passed and
    [use_qigen] meets a false QIGen flag; or that is passed, none of
    [use_qigen], [use_triton] and [use_tritonv2] is set, [use_ipex] is set
    or forced, and [bits] is not 4 or the IPEX flag is false.  In
    particular the triton branch and the default family never raise. *)
Theorem X7_raises_exactly_when (rt : Runtime) (w : World)
    (use_triton desc_act : bool) (group_size bits : Z)
    (disable_exllama : option bool)
    (disable_exllamav2 use_qigen use_marlin use_tritonv2 use_ipex : bool) :
  (exists e : exn,
      fst (run (dynamically_import_QuantLinear rt use_triton desc_act
                  group_size bits disable_exllama disable_exllamav2
                  use_qigen use_marlin use_tritonv2 use_ipex) w) = inl e)
  <-> available (import_habana_hpu rt) = false
      /\ ((cuda_is_available rt = false /\ use_ipex = false
           /\ _warned (globals w) = None)
          \/ (latch_readable rt w use_ipex /\ use_qigen = true
              /\ QIGEN_AVAILABLE (globals w) = false)
          \/ (latch_readable rt w use_ipex /\ use_qigen = false
              /\ use_triton || use_tritonv2 = false
              /\ (use_ipex = true \/ cuda_is_available rt = false)
              /\ (bits <> 4 \/ IPEX_AVAILABLE (globals w) = false))).
Proof.
  rewrite selector_run, force_ipex_run. unfold latch_readable.
  selector_cases rt w use_qigen use_triton use_tritonv2 use_ipex bits;
    simpl;
    repeat match goal with
           | H : ?x = _ |- context [?x] => rewrite H
           end;
    simpl;
    repeat match goal with
           | H : (_ =? _) = true |- _ => apply Z.eqb_eq in H
           | H : (_ =? _) = false |- _ => apply Z.eqb_neq in H
           end;
    (split;
     [ intros [e0 He]; try discriminate He; intuition congruence
     | intros H; try (eexists; reflexivity); exfalso; intuition congruence ]).
Qed.

(** ** The branches *)

(** X8.  [use_qigen] wherever line 91 does not raise (CUDA is there, or
    [use_ipex] is set, or [_warned] is bound): the call returns the QIGen
    class when the QIGen flag is true, and otherwise raises a [ValueError]
    whose text carries the text of the exception that the probe recorded.
    The configuration and the other preferences play no part. *)
Theorem X8_qigen_decides (rt : Runtime) (w : World)
    (use_triton desc_act : bool) (group_size bits : Z)
    (disable_exllama : option bool)
    (disable_exllamav2 use_marlin use_tritonv2 use_ipex : bool) :
  available (import_habana_hpu rt) = false ->
  latch_readable rt w use_ipex ->
  let result :=
    fst (run (dynamically_import_QuantLinear rt use_triton desc_act
                group_size bits disable_exllama disable_exllamav2 true
                use_marlin use_tritonv2 use_ipex) w) in
  (QIGEN_AVAILABLE (globals w) = true -> result = inr qlinear_qigen)
  /\ (QIGEN_AVAILABLE (globals w) = false ->
      forall d : exn, QIGEN_EXCEPTION (globals w) = Some d ->
      exists m : string,
        result = inl (ValueError m) /\ Contains (str_exn d) m).
Proof.
  intros Hh Hl result. subst result.
  rewrite (qigen_branch rt w use_triton desc_act group_size bits
             disable_exllama disable_exllamav2 use_marlin use_tritonv2
             use_ipex Hh Hl).
  split.
  - intros ->. reflexivity.
  - intros -> d ->. eexists. split; [reflexivity | ].
    apply Contains_middle.
Qed.

Lemma X8_qigen_decides_witness :
  fst (run (dynamically_import_QuantLinear cuda_machine true true 128 8
              None false true true true false) qigen_world)
  = inr qlinear_qigen
  /\ exists m : string,
       fst (run (dynamically_import_QuantLinear cpu_machine false true 128 4
                   None false true false false true) bare_world)
       = inl (ValueError m)
       /\ Contains "No module named 'cQIGen'" m.
Proof.
  split.
  - apply (X8_qigen_decides cuda_machine qigen_world true true 128 8 None
             false true true false); [reflexivity | now left | reflexivity].
  - apply (proj2 (X8_qigen_decides cpu_machine bare_world false true 128 4
                    None false false false true eq_refl
                    (or_intror (or_introl eq_refl)))
             eq_refl (ImportError "No module named 'cQIGen'") eq_refl).
Defined.

(** X9.  The triton branch with CUDA available: the class is returned
    whatever [torch.version.hip] holds, the globals stay, and the log gains,
    in this order, the AMD warning when [torch.version.hip] is a non-empty
    string and the debug record when [use_tritonv2] is set, and nothing
    else. *)
Theorem X9_triton_logs (rt : Runtime) (w : World)
    (use_triton desc_act : bool) (group_size bits : Z)
    (disable_exllama : option bool)
    (disable_exllamav2 use_marlin use_tritonv2 use_ipex : bool) :
  available (import_habana_hpu rt) = false ->
  cuda_is_available rt = true ->
  use_triton || use_tritonv2 = true ->
  let r :=
    run (dynamically_import_QuantLinear rt use_triton desc_act group_size
           bits disable_exllama disable_exllamav2 false use_marlin
           use_tritonv2 use_ipex) w in
  fst r = inr (if use_tritonv2 then qlinear_tritonv2 else qlinear_triton)
  /\ globals (snd r) = globals w
  /\ records (snd r)
     = (records w
        ++ (if truthy (version_hip rt) then
              [(WARNING,
                "Running GPTQ triton version on AMD GPUs is untested and may result in errors or wrong predictions. Please use use_triton=False.")]
            else [])
        ++ (if use_tritonv2 then [(DEBUG, "Using tritonv2 for GPTQ")]
            else []))%list.
Proof.
  intros Hh Hc Ht r. subst r.
  rewrite selector_run, force_ipex_run, Hc, Ht.
  destruct (import_habana_hpu rt); [discriminate Hh | ].
  simpl. repeat split.
Qed.

Lemma X9_triton_logs_witness :
  run (dynamically_import_QuantLinear rocm_machine true true 128 4
         None false false false true false) bare_world
  = (inr qlinear_tritonv2,
     {| globals := globals bare_world;
        records :=
          [(WARNING,
            "Running GPTQ triton version on AMD GPUs is untested and may result in errors or wrong predictions. Please use use_triton=False.");
           (DEBUG, "Using tritonv2 for GPTQ")] |}).
Proof.
  pose proof (X9_triton_logs rocm_machine bare_world true true 128 4 None
                false false true false eq_refl eq_refl eq_refl)
    as (H1 & H2 & H3).
  destruct (run _ bare_world) as [r [g l]]. simpl in *. now subst.
Defined.

(** X10.  Without CUDA and HPU, with [_warned] bound and none of
    [use_qigen], [use_triton], [use_tritonv2]: whether [use_ipex] was
    passed or not, [use_marlin] and the exllama switches are not looked at;
    the call raises the assertion error when [bits] is not 4, returns the
    IPEX class when the IPEX flag is true, and raises the [ValueError] of
    line 115 otherwise.  When [use_ipex] was not passed and [_warned] was
    [False], the warning is logged and [_warned] set, also when the call
    then raises. *)
Theorem X10_without_cuda_ipex_only (rt : Runtime) (w : World)
    (desc_act : bool) (group_size bits : Z) (disable_exllama : option bool)
    (disable_exllamav2 use_marlin use_ipex warned : bool) :
  available (import_habana_hpu rt) = false ->
  cuda_is_available rt = false ->
  _warned (globals w) = Some warned ->
  run (dynamically_import_QuantLinear rt false desc_act group_size bits
         disable_exllama disable_exllamav2 false use_marlin false use_ipex) w
  = (if negb (bits =? 4) then inl ipex_needs_4bit
     else if IPEX_AVAILABLE (globals w) then inr qlinear_ipex
     else inl (ipex_unavailable (globals w)),
     if use_ipex || warned then w else warned_once w).
Proof.
  intros Hh Hc Hw. rewrite selector_run, force_ipex_run, Hc, Hw.
  destruct (import_habana_hpu rt); [discriminate Hh | ].
  destruct use_ipex, warned; reflexivity.
Qed.

Lemma X10_without_cuda_ipex_only_witness :
  run (dynamically_import_QuantLinear cpu_machine false true 128 4
         None false false true false false) ipex_world
  = (inr qlinear_ipex, warned_once ipex_world)
  /\ run (dynamically_import_QuantLinear cpu_machine false true 128 8
            None false false true false false) ipex_world
     = (inl ipex_needs_4bit, warned_once ipex_world).
Proof.
  split.
  - apply (X10_without_cuda_ipex_only cpu_machine ipex_world true 128 4 None
             false true false false); reflexivity.
  - apply (X10_without_cuda_ipex_only cpu_machine ipex_world true 128 8 None
             false true false false); reflexivity.
Defined.

(** X11.  Without CUDA and HPU no call returns a class of the default
    family: Marlin, exllama-v2, exllama-v1 and the two CUDA classes are out
    of reach, whatever the flags, the world and the arguments are. *)
Theorem X11_no_default_family_without_cuda (rt : Runtime) (w : World)
    (use_triton desc_act : bool) (group_size bits : Z)
    (disable_exllama : option bool)
    (disable_exllamav2 use_qigen use_marlin use_tritonv2 use_ipex : bool)
    (b : Backend) :
  available (import_habana_hpu rt) = false ->
  cuda_is_available rt = false ->
  fst (run (dynamically_import_QuantLinear rt use_triton desc_act group_size
              bits disable_exllama disable_exllamav2 use_qigen use_marlin
              use_tritonv2 use_ipex) w) = inr b ->
  b = qlinear_qigen \/ b = qlinear_triton \/ b = qlinear_tritonv2
  \/ b = qlinear_ipex.
Proof.
  intros Hh Hc. rewrite selector_run, force_ipex_run, Hc.
  destruct (import_habana_hpu rt); [discriminate Hh | ].
  destruct use_ipex; simpl orb; cbv iota;
    [ | destruct (_warned (globals w)) as [[|]|];
        [ | | simpl; intros H; discriminate H]];
    (destruct use_qigen;
     [destruct (QIGEN_AVAILABLE _)
     | destruct (use_triton || use_tritonv2);
       [destruct use_tritonv2
       | destruct (bits =? 4); [destruct (IPEX_AVAILABLE _) | ]]];
     simpl; intros H; try discriminate H; injection H as <-; auto).
Qed.

Lemma X11_no_default_family_without_cuda_witness :
  qlinear_ipex = qlinear_qigen \/ qlinear_ipex = qlinear_triton
  \/ qlinear_ipex = qlinear_tritonv2 \/ qlinear_ipex = qlinear_ipex.
Proof.
  apply (X11_no_default_family_without_cuda cpu_machine ipex_world false true
           128 4 None false false true false false qlinear_ipex);
    reflexivity.
Defined.

(** ** The default family *)

(** Case analysis on what lines 126-135 look at, the test on [bits] turned
    into an equation. *)
Ltac default_cases g bits use_marlin disable_exllama disable_exllamav2
                   desc_act group_size :=
  unfold default_choice, resolve_disable_exllama;
  destruct (Z.eqb_spec bits 4), use_marlin, disable_exllamav2,
    disable_exllama as [[|]|],
    (EXLLAMAV2_KERNELS_AVAILABLE g), (EXLLAMA_KERNELS_AVAILABLE g),
    (negb desc_act || (group_size =? -1));
  simpl.

Lemma default_family_choice (rt : Runtime) (w : World)
    (desc_act : bool) (group_size bits : Z) (disable_exllama : option bool)
    (disable_exllamav2 use_marlin : bool) :
  available (import_habana_hpu rt) = false ->
  cuda_is_available rt = true ->
  run (dynamically_import_QuantLinear rt false desc_act group_size bits
         disable_exllama disable_exllamav2 false use_marlin false false) w
  = (inr (default_choice (globals w) desc_act group_size bits
            disable_exllama disable_exllamav2 use_marlin), w).
Proof.
  intros Hh Hc. rewrite selector_run, force_ipex_run, Hc.
  destruct (import_habana_hpu rt); [discriminate Hh | reflexivity].
Qed.

(** X12.  In the default family a width other than 4 bits gets one of the
    two CUDA classes, by [desc_act] and [group_size] alone: [use_marlin],
    the exllama switches and the capability flags change nothing. *)
Theorem X12_other_widths_get_cuda (rt : Runtime) (w : World)
    (desc_act : bool) (group_size bits : Z) (disable_exllama : option bool)
    (disable_exllamav2 use_marlin : bool) :
  available (import_habana_hpu rt) = false ->
  cuda_is_available rt = true ->
  bits <> 4 ->
  run (dynamically_import_QuantLinear rt false desc_act group_size bits
         disable_exllama disable_exllamav2 false use_marlin false false) w
  = (inr (if negb desc_act || (group_size =? -1) then qlinear_cuda_old
          else qlinear_cuda), w).
Proof.
  intros Hh Hc Hb. rewrite (default_family_choice _ _ _ _ _ _ _ _ Hh Hc).
  unfold default_choice.
  destruct (Z.eqb_spec bits 4); [contradiction | reflexivity].
Qed.

Lemma X12_other_widths_get_cuda_witness :
  run (dynamically_import_QuantLinear cuda_machine false true 128 8
         (Some false) false false true false false) full_world
  = (inr qlinear_cuda, full_world).
Proof.
  apply (X12_other_widths_get_cuda cuda_machine full_world true 128 8
           (Some false) false true); [reflexivity | reflexivity | lia].
Defined.

(** X13.  In the default family the exllama-v2 class is returned exactly
    when [bits] is 4, [use_marlin] is false, [disable_exllamav2] is false
    and the exllama-v2 flag is true; [disable_exllama], [desc_act] and
    [group_size] play no part. *)
Theorem X13_exllamav2_exactly_when (rt : Runtime) (w : World)
    (desc_act : bool) (group_size bits : Z) (disable_exllama : option bool)
    (disable_exllamav2 use_marlin : bool) :
  available (import_habana_hpu rt) = false ->
  cuda_is_available rt = true ->
  (fst (run (dynamically_import_QuantLinear rt false desc_act group_size
               bits disable_exllama disable_exllamav2 false use_marlin
               false false) w) = inr qlinear_exllamav2
   <-> bits = 4 /\ use_marlin = false /\ disable_exllamav2 = false
       /\ EXLLAMAV2_KERNELS_AVAILABLE (globals w) = true).
Proof.
  intros Hh Hc. rewrite (default_family_choice _ _ _ _ _ _ _ _ Hh Hc).
  default_cases (globals w) bits use_marlin disable_exllama disable_exllamav2
                desc_act group_size;
    split; intros H; try discriminate H; intuition congruence.
Qed.

Lemma X13_exllamav2_exactly_when_witness :
  fst (run (dynamically_import_QuantLinear cuda_machine false false (-1) 4
              (Some true) false false false false false) full_world)
  = inr qlinear_exllamav2.
Proof.
  apply (X13_exllamav2_exactly_when cuda_machine full_world false (-1) 4
           (Some true) false false eq_refl eq_refl).
  repeat split.
Defined.

(** X14.  In the default family the exllama-v1 class is returned exactly
    when [bits] is 4, [use_marlin] is false, exllama-v2 is disabled or its
    flag false, the exllama-v1 flag is true, and [disable_exllama] was
    passed as false or was left unset with [disable_exllamav2] true.  So
    disabling exllama-v2 alone falls back on exllama-v1 rather than on the
    CUDA classes, as the comment of line 120 wants. *)
Theorem X14_exllama_exactly_when (rt : Runtime) (w : World)
    (desc_act : bool) (group_size bits : Z) (disable_exllama : option bool)
    (disable_exllamav2 use_marlin : bool) :
  available (import_habana_hpu rt) = false ->
  cuda_is_available rt = true ->
  (fst (run (dynamically_import_QuantLinear rt false desc_act group_size
               bits disable_exllama disable_exllamav2 false use_marlin
               false false) w) = inr qlinear_exllama
   <-> bits = 4 /\ use_marlin = false
       /\ (disable_exllamav2 = true
           \/ EXLLAMAV2_KERNELS_AVAILABLE (globals w) = false)
       /\ EXLLAMA_KERNELS_AVAILABLE (globals w) = true
       /\ (disable_exllama = Some false
           \/ (disable_exllama = None /\ disable_exllamav2 = true))).
Proof.
  intros Hh Hc. rewrite (default_family_choice _ _ _ _ _ _ _ _ Hh Hc).
  default_cases (globals w) bits use_marlin disable_exllama disable_exllamav2
                desc_act group_size;
    split; intros H; try discriminate H; intuition congruence.
Qed.

Lemma X14_exllama_exactly_when_witness :
  fst (run (dynamically_import_QuantLinear cuda_machine false true 128 4
              None true false false false false) full_world)
  = inr qlinear_exllama.
Proof.
  apply (X14_exllama_exactly_when cuda_machine full_world true 128 4
           None true false eq_refl eq_refl).
  repeat split; auto.
Defined.

(** ** The comparators *)

Lemma getattr_operator {P : Packaging} (op : string) :
  In op operators ->
  exists m : Version -> Version -> bool,
    getattr_Version ("__" ++ op ++ "__") = inr m.
Proof.
  intros H. simpl in H.
  destruct H as [<- | [<- | [<- | [<- | [<- | []]]]]];
    eexists; reflexivity.
Qed.

Lemma compare_installed_run {P : Packaging} (installed version op : string) :
  In op operators ->
  exists m : Version -> Version -> bool,
    getattr_Version ("__" ++ op ++ "__") = inr m
    /\ compare_installed installed version op
       = match parse_version installed with
         | inl e => inl e
         | inr a => match parse_version version with
                    | inl e => inl e
                    | inr b => inr (m a b)
                    end
         end.
Proof.
  intros H. destruct (getattr_operator op H) as [m Hm]. exists m.
  split; [exact Hm | ].
  unfold compare_installed. cbv [bind ret Monad_either]. rewrite Hm.
  destruct (parse_version installed); [reflexivity | ].
  destruct (parse_version version); reflexivity.
Qed.

(** X15.  The order of the failures of the comparators, for an operator of
    the five.  [compare_transformers_version] raises what the import of
    transformers raises; failing that, what parsing the installed version
    raises, whether the target parses or not; failing that, what parsing
    the target raises.  [compare_pytorch_version] does the same on the
    version of torch and never looks at transformers.  The lookup of the
    comparison method does not fail. *)
Theorem X15_comparator_failures {P : Packaging}
    (rt : Runtime) (version op : string) :
  In op operators ->
  (forall e : exn,
      transformers_version rt = inl e ->
      compare_transformers_version rt version op = inl e)
  /\ (forall (s : string) (e : exn),
        transformers_version rt = inr s -> parse_version s = inl e ->
        compare_transformers_version rt version op = inl e)
  /\ (forall (s : string) (a : Version) (e : exn),
        transformers_version rt = inr s -> parse_version s = inr a ->
        parse_version version = inl e ->
        compare_transformers_version rt version op = inl e)
  /\ (forall e : exn,
        parse_version (torch_version rt) = inl e ->
        compare_pytorch_version rt version op = inl e)
  /\ (forall (a : Version) (e : exn),
        parse_version (torch_version rt) = inr a ->
        parse_version version = inl e ->
        compare_pytorch_version rt version op = inl e)
  /\ (exists m : Version -> Version -> bool,
        getattr_Version ("__" ++ op ++ "__") = inr m).
Proof.
  intros Hop.
  assert (Hin : op_in_operators op = true) by now apply op_in_operators_In.
  unfold compare_transformers_version, compare_pytorch_version.
  rewrite Hin. repeat split.
  - intros e ->. reflexivity.
  - intros s e -> Hs. simpl.
    destruct (compare_installed_run s version op Hop) as (m & _ & ->).
    now rewrite Hs.
  - intros s a e -> Hs Hv. simpl.
    destruct (compare_installed_run s version op Hop) as (m & _ & ->).
    now rewrite Hs, Hv.
  - intros e Hs.
    destruct (compare_installed_run (torch_version rt) version op Hop)
      as (m & _ & ->).
    now rewrite Hs.
  - intros a e Hs Hv.
    destruct (compare_installed_run (torch_version rt) version op Hop)
      as (m & _ & ->).
    now rewrite Hs, Hv.
  - apply getattr_operator, Hop.
Qed.

Lemma X15_comparator_failures_witness :
  compare_transformers_version (P := Release.packaging)
    odd_machine "v4.28.0" "ge"
  = inl (ImportError "No module named 'transformers'")
  /\ compare_pytorch_version (P := Release.packaging)
       odd_machine "not a version" "ge"
     = inl (InvalidVersion "Invalid version: '2.x'").
Proof.
  split.
  - apply (proj1 (X15_comparator_failures (P := Release.packaging)
                    odd_machine "v4.28.0" "ge"
                    (or_intror (or_intror (or_intror (or_intror
                       (or_introl eq_refl))))))).
    reflexivity.
  - apply (proj1 (proj2 (proj2 (proj2
             (X15_comparator_failures (P := Release.packaging)
                odd_machine "not a version" "ge"
                (or_intror (or_intror (or_intror (or_intror
                   (or_introl eq_refl))))))))));
      reflexivity.
Defined.

(** X16.  A comparator raises nothing of its own but the assertion error:
    whatever it raises is that error, for an operator outside the five, or
    was raised by the import of transformers or by [parse_version] on the
    installed version or on the target.  [compare_pytorch_version] depends
    on the runtime through the version of torch alone. *)
Theorem X16_comparators_raise_only {P : Packaging}
    (rt : Runtime) (version op : string) (e : exn) :
  (compare_transformers_version rt version op = inl e ->
   (e = AssertionError EmptyString /\ ~ In op operators)
   \/ transformers_version rt = inl e
   \/ (exists s : string,
         transformers_version rt = inr s /\ parse_version s = inl e)
   \/ parse_version version = inl e)
  /\ (compare_pytorch_version rt version op = inl e ->
      (e = AssertionError EmptyString /\ ~ In op operators)
      \/ parse_version (torch_version rt) = inl e
      \/ parse_version version = inl e)
  /\ (forall rt' : Runtime,
        torch_version rt' = torch_version rt ->
        compare_pytorch_version rt' version op
        = compare_pytorch_version rt version op).
Proof.
  unfold compare_transformers_version, compare_pytorch_version.
  destruct (op_in_operators op) eqn:Hin.
  - apply op_in_operators_In in Hin. repeat split.
    + destruct (transformers_version rt) as [e' | s] eqn:Ht; simpl.
      * intros H. injection H as <-. now right; left.
      * destruct (compare_installed_run s version op Hin) as (m & _ & ->).
        destruct (parse_version s) as [e1 | a] eqn:Hs.
        { intros H. injection H as <-. right. right. left. now exists s. }
        destruct (parse_version version) as [e2 | b]; [ | discriminate].
        intros H. injection H as <-. now right; right; right.
    + destruct (compare_installed_run (torch_version rt) version op Hin)
        as (m & _ & ->).
      destruct (parse_version (torch_version rt)) as [e1 | a].
      { intros H. injection H as <-. now right; left. }
      destruct (parse_version version) as [e2 | b]; [ | discriminate].
      intros H. injection H as <-. now right; right.
    + intros rt' ->. reflexivity.
  - assert (Hn : ~ In op operators).
    { intros H. apply op_in_operators_In in H. congruence. }
    repeat split; try (intros H; injection H as <-; now left).
Qed.

Lemma X16_comparators_raise_only_witness :
  (AssertionError EmptyString = AssertionError EmptyString
   /\ ~ In "neq" operators)
  \/ Release.parse (torch_version cuda_machine)
     = inl (AssertionError EmptyString)
  \/ Release.parse "v2.0.0" = inl (AssertionError EmptyString).
Proof.
  apply (proj1 (proj2 (X16_comparators_raise_only (P := Release.packaging)
                         cuda_machine "v2.0.0" "neq"
                         (AssertionError EmptyString)))).
  reflexivity.
Defined.

Lemma X7_raises_exactly_when_witness :
  exists e : exn,
    fst (run (dynamically_import_QuantLinear cuda_machine false true 128 8
                None false false false false true) full_world) = inl e.
Proof.
  apply (proj2 (X7_raises_exactly_when cuda_machine full_world false true 128
                  8 None false false false false true)).
  split; [reflexivity | ].
  right. right. repeat split.
  - now left.
  - now left.
  - left. lia.
Defined.
